(** * TextureGridDisplay: from an occupancy octree to level buckets of points

    A shallow embedding of [src/texture_grid_display.cpp] and the properties
    of its visibility filter, colour model and buffer hand-off.

    Conventions of the embedding.
    - [unsigned short] key coordinates are [Z] values in [0, 65535]; every
      store into a coordinate goes through [u16], comparisons are made on the
      promoted [int] values as C++ does.
    - [double] values are rationals extended with the two infinities and NaN
      ([double] below): a division by zero and a result beyond the largest
      double create the special values; the rounding of the mantissa of a
      [double] result is not modelled. The occupancy that the probability
      colour mode narrows to [float] is rounded to the nearest binary32
      number ([Float]); point positions and the sums of the texture mode are
      kept as the exact values.
    - An execution ends in [Done], in [Undefined] (the C++ standard gives the
      step no meaning: [front()] of an empty vector, an index out of range, a
      NaN converted to [int], the read of a variable that was never given a
      value) or in [OutOfFuel] (a loop still running when the fuel is
      spent).
    - The octree, the frame manager and the message decoder are collaborators
      whose code lives in other packages; they appear as records of the
      operations the display calls. *)

From Stdlib Require Import ZArith QArith Qabs Qround Qpower Qfield.
From Stdlib Require Import Lia Lqa Bool String DecimalString.
From stdpp Require Import base list.

Local Open Scope Z_scope.

(** ** Outcomes of an execution *)

Inductive outcome (A : Type) : Type :=
| Done (a : A)
| Undefined
| OutOfFuel.

Arguments Done {A} a.
Arguments Undefined {A}.
Arguments OutOfFuel {A}.

Definition obind {A B : Type} (m : outcome A) (k : A -> outcome B) : outcome B :=
  match m with
  | Done a => k a
  | Undefined => Undefined
  | OutOfFuel => OutOfFuel
  end.

Notation "'run' x <~ m 'in' k" := (obind m (fun x => k))
  (at level 10, x name, m at level 100, k at level 200).

(** ** Machine integers *)

(** [static const std::size_t max_octree_depth_ = sizeof(unsigned short) * 8] *)
Definition max_octree_depth_ : nat := 16.

(** A store into an [unsigned short]. *)
Definition u16 (z : Z) : Z := z mod 65536.

(** A store into an [unsigned int]. *)
Definition u32 (z : Z) : Z := z mod 4294967296.

Definition INT_MIN : Z := -2147483648.
Definition INT_MAX : Z := 2147483647.

(** ** Doubles *)

Inductive double : Type :=
| Fin (q : Q)
| PInf
| NInf
| NaN.

Module Double.

Definition of_Z (z : Z) : double := Fin (inject_Z z).

(** [a < b]: false as soon as one side is NaN. *)
Definition lt (a b : double) : bool :=
  match a, b with
  | NaN, _ | _, NaN => false
  | Fin x, Fin y => negb (Qle_bool y x)
  | NInf, NInf => false
  | NInf, _ => true
  | _, NInf => false
  | PInf, _ => false
  | Fin _, PInf => true
  end.

(** [std::max(a, b)] is [(a < b) ? b : a]; [std::min(a, b)] is
    [(b < a) ? b : a]. *)
Definition std_max (a b : double) : double := if lt a b then b else a.
Definition std_min (a b : double) : double := if lt b a then b else a.

Definition neg (a : double) : double :=
  match a with
  | Fin x => Fin (- x)
  | PInf => NInf
  | NInf => PInf
  | NaN => NaN
  end.

(** The sign of a rational as an infinity; zero has the sign of +0. *)
Definition signed_inf (negative : bool) : double :=
  if negative then NInf else PInf.

Definition is_neg (x : Q) : bool := negb (Qle_bool 0 x).
Definition is_zero (x : Q) : bool := Qeq_bool x 0.

(** The largest finite double is [2^1024 - 2^971]. A result whose magnitude
    reaches [2^1024 - 2^970], half a unit in the last place above it, is
    rounded to an infinity. *)
Definition overflow_bound : Q := inject_Z (2 ^ 1024 - 2 ^ 970).

(** The result of an operation on finite operands whose exact value is [q]:
    an infinity when [q] overflows, [q] itself otherwise. *)
Definition fin (q : Q) : double :=
  if Qle_bool overflow_bound (Qabs q) then signed_inf (is_neg q) else Fin q.

Definition add (a b : double) : double :=
  match a, b with
  | NaN, _ | _, NaN => NaN
  | Fin x, Fin y => fin (x + y)
  | PInf, NInf | NInf, PInf => NaN
  | PInf, _ | _, PInf => PInf
  | NInf, _ | _, NInf => NInf
  end.

Definition sub (a b : double) : double := add a (neg b).

Definition mul (a b : double) : double :=
  match a, b with
  | NaN, _ | _, NaN => NaN
  | Fin x, Fin y => fin (x * y)
  | Fin x, PInf | PInf, Fin x =>
      if is_zero x then NaN else signed_inf (is_neg x)
  | Fin x, NInf | NInf, Fin x =>
      if is_zero x then NaN else signed_inf (negb (is_neg x))
  | PInf, PInf | NInf, NInf => PInf
  | PInf, NInf | NInf, PInf => NInf
  end.

Definition div (a b : double) : double :=
  match a, b with
  | NaN, _ | _, NaN => NaN
  | Fin x, Fin y =>
      if is_zero y
      then (if is_zero x then NaN else signed_inf (is_neg x))
      else fin (x / y)
  | Fin _, (PInf | NInf) => Fin 0
  | PInf, Fin y => signed_inf (is_neg y)
  | NInf, Fin y => signed_inf (negb (is_neg y))
  | (PInf | NInf), (PInf | NInf) => NaN
  end.

Definition floor (a : double) : double :=
  match a with
  | Fin x => of_Z (Qfloor x)
  | other => other
  end.

(** Conversion to [int] truncates; it has no meaning when the truncated
    value is not an [int]. *)
Definition to_int (a : double) : outcome Z :=
  match a with
  | Fin x =>
      let z := if is_neg x then Qceiling x else Qfloor x in
      if (INT_MIN <=? z) && (z <=? INT_MAX) then Done z else Undefined
  | _ => Undefined
  end.

End Double.

(** ** Floats *)

(** A [float] value is a [double] that is a binary32 number. A [double] is
    narrowed to [float] by rounding to the nearest binary32 number, ties to
    the even mantissa; float arithmetic rounds its exact result the same
    way. *)
Module Float.

(** [floor (log2 |q|)] for [q] other than 0: the quotient of a numerator in
    [2^a, 2^(a+1)) by a denominator in [2^b, 2^(b+1)) lies between
    [2^(a-b-1)] and [2^(a-b+1)]. *)
Definition ilog2 (q : Q) : Z :=
  let e := Z.log2 (Z.abs (Qnum q)) - Z.log2 (Zpos (Qden q)) in
  if Qle_bool (2 ^ e) (Qabs q) then e else e - 1.

(** The exponent of the unit in the last place of the binary32 numbers
    around [q]: 24 bits of mantissa, subnormal below [2^-126]. *)
Definition ulp_exponent (q : Q) : Z := Z.max (ilog2 q - 23) (-149).

(** The integer nearest to [s], the even one of two that are equally near. *)
Definition nearest_even (s : Q) : Z :=
  let f := Qfloor s in
  match Qcompare (s - inject_Z f) (1 # 2) with
  | Lt => f
  | Gt => f + 1
  | Eq => if Z.even f then f else f + 1
  end.

(** Rounding a rational to binary32; a rounded magnitude of [2^128] or more
    is an infinity. *)
Definition round (q : Q) : double :=
  if Double.is_zero q then Fin 0
  else
    let e := ulp_exponent q in
    let r := (inject_Z (nearest_even (q / 2 ^ e)) * 2 ^ e)%Q in
    if Qle_bool (inject_Z (2 ^ 128)) (Qabs r)
    then Double.signed_inf (Double.is_neg q)
    else Fin (Qred r).

(** The conversion [(float) a]. *)
Definition of_double (a : double) : double :=
  match a with
  | Fin q => round q
  | other => other
  end.

(** [a - b] on two [float]s. *)
Definition sub (a b : double) : double := of_double (Double.sub a b).

End Float.

(** ** Octree keys and the octree as the display sees it *)

(** [octomap::OcTreeKey]: three [unsigned short] coordinates, [k[0]], [k[1]]
    and [k[2]]. *)
Record OcTreeKey : Type := mkKey { k0 : Z; k1 : Z; k2 : Z }.

(** [operator!=] of [OcTreeKey] is the negation of this. *)
Definition key_eqb (a b : OcTreeKey) : bool :=
  (k0 a =? k0 b) && (k1 a =? k1 b) && (k2 a =? k2 b).

Definition key_in_range (k : OcTreeKey) : Prop :=
  0 <= k0 k <= 65535 /\ 0 <= k1 k <= 65535 /\ 0 <= k2 k <= 65535.

(** A node of the texture octree. [occupied] is what [isNodeOccupied] answers
    for it; [getFaceValue i] and [getFaceObservations i] take the face
    [(octomap::FaceEnum) i]. *)
Record TextureOcTreeNode : Type := mkNode {
  occupied : bool;
  getOccupancy : double;
  getFaceValue : Z -> Z;
  getFaceObservations : Z -> Z
}.

(** A position of the leaf iterator: [*it], [it.getKey()], [it.getDepth()],
    [it.getX()], [it.getY()], [it.getZ()]. *)
Record leaf_iterator : Type := mkLeaf {
  it_node : TextureOcTreeNode;
  getKey : OcTreeKey;
  getDepth : Z;
  getX : double;
  getY : double;
  getZ : double
}.

(** [octomap::TextureOcTree] through the calls the display makes.
    [search key depth] is the library's [search(key, depth = 0)], where depth
    0 stands for the full tree depth; [leaves d] is the sequence
    [begin(d) .. end()]. *)
Record TextureOcTree : Type := mkTree {
  getTreeDepth : Z;
  getNodeSize : Z -> double;
  getMetricMinZ : double;
  getMetricMaxZ : double;
  search : OcTreeKey -> Z -> option TextureOcTreeNode;
  leaves : Z -> list leaf_iterator
}.

Definition isNodeOccupied (n : TextureOcTreeNode) : bool := occupied n.

(** ** Render and colour modes *)

Definition OCTOMAP_FREE_VOXELS : Z := 1.
Definition OCTOMAP_OCCUPIED_VOXELS : Z := 2.

Definition OCTOMAP_TEXTURE_COLOR : Z := 0.
Definition OCTOMAP_Z_AXIS_COLOR : Z := 1.
Definition OCTOMAP_PROBABLILTY_COLOR : Z := 2.

(** [((int)isNodeOccupied(n) + 1) & render_mode_mask], as a condition. *)
Definition matches_mask (render_mode_mask : Z) (n : TextureOcTreeNode) : bool :=
  negb (Z.land (Z.b2z (isNodeOccupied n) + 1) render_mode_mask =? 0).

(** ** The neighbour scan (source lines 352 to 378) *)

(** The loop state: the flag of the source, and the keys handed to [search]
    so far (a record of the calls made, oldest first). *)
Record scan : Type := mkScan {
  allNeighborsFound : bool;
  searched : list (OcTreeKey * Z)
}.

(** The depth argument of every lookup: the call is [octomap->search(key)],
    so the declared default applies. *)
Definition default_search_depth : Z := 0.

(** The body of the innermost loop (lines 363 to 373). *)
Definition check_neighbor (t : TextureOcTree) (render_mode_mask : Z)
    (nKey key : OcTreeKey) (s : scan) : scan :=
  if negb (key_eqb key nKey) then
    let node := search t key default_search_depth in
    let found :=
      match node with
      | Some n => matches_mask render_mode_mask n
      | None => false
      end in
    {| allNeighborsFound := if negb found then false else allNeighborsFound s;
       searched := searched s ++ [(key, default_search_depth)] |}
  else s.

(** [for (k = start; allNeighborsFound && k <= bound; ++k) body]: [k] is an
    [unsigned short], [bound] is the [int] value of [nKey[i] + 1]. *)
Fixpoint for_key (fuel : nat) (bound : Z) (body : Z -> scan -> outcome scan)
    (k : Z) (s : scan) : outcome scan :=
  match fuel with
  | O => OutOfFuel
  | S fuel' =>
      if allNeighborsFound s && (k <=? bound) then
        run s' <~ body k s in
        for_key fuel' bound body (u16 (k + 1)) s'
      else Done s
  end.

Definition neighbor_scan (fuel : nat) (t : TextureOcTree) (render_mode_mask : Z)
    (nKey : OcTreeKey) : outcome scan :=
  for_key fuel (k2 nKey + 1)
    (fun z s2 =>
       for_key fuel (k1 nKey + 1)
         (fun y s1 =>
            for_key fuel (k0 nKey + 1)
              (fun x s0 =>
                 Done (check_neighbor t render_mode_mask nKey (mkKey x y z) s0))
              (u16 (k0 nKey - 1)) s1)
         (u16 (k1 nKey - 1)) s2)
    (u16 (k2 nKey - 1))
    {| allNeighborsFound := true; searched := [] |}.

(** The visibility decision for one leaf that passed the test of line 341
    (lines 344 to 379): the final value of [display_voxel], with the lookups
    that were made. *)
Definition display_voxel (fuel : nat) (t : TextureOcTree) (render_mode_mask : Z)
    (it : leaf_iterator) : outcome (bool * list (OcTreeKey * Z)) :=
  if matches_mask render_mode_mask (it_node it) then
    run s <~ neighbor_scan fuel t render_mode_mask (getKey it) in
    Done (false || negb (allNeighborsFound s), searched s)
  else Done (false, []).

(** ** The colour model *)

(** [Ogre::ColourValue], without the alpha channel. *)
Record Color : Type := mkColor { red : double; green : double; blue : double }.

(** The colour of a fresh [rviz::PointCloud::Point]: [Ogre::ColourValue()]
    is white. *)
Definition default_color : Color := mkColor (Fin 1) (Fin 1) (Fin 1).

(** The [switch (i)] of [setColor] (lines 247 to 271). *)
Definition sector_color (i : Z) (v n m : double) : Color :=
  match i with
  | 6 | 0 => mkColor v n m
  | 1 => mkColor n v m
  | 2 => mkColor m v n
  | 3 => mkColor m n v
  | 4 => mkColor n m v
  | 5 => mkColor v m n
  | _ => mkColor (Fin 1) (Fin (1 # 2)) (Fin (1 # 2))
  end.

(** [TextureGridDisplay::setColor] (lines 227 to 272). *)
Definition setColor (z_pos min_z max_z color_factor : double) : outcome Color :=
  let s := Fin 1 in
  let v := Fin 1 in
  let h :=
    Double.mul
      (Double.sub (Fin 1)
         (Double.std_min
            (Double.std_max
               (Double.div (Double.sub z_pos min_z) (Double.sub max_z min_z))
               (Fin 0))
            (Fin 1)))
      color_factor in
  let h := Double.sub h (Double.floor h) in
  let h := Double.mul h (Fin 6) in
  run i <~ Double.to_int (Double.floor h) in
  let f := Double.sub h (Double.of_Z i) in
  let f := if Z.land i 1 =? 0 then Double.sub (Fin 1) f else f in
  let m := Double.mul v (Double.sub (Fin 1) s) in
  let n := Double.mul v (Double.sub (Fin 1) (Double.mul s f)) in
  Done (sector_color i v n m).

(** [TextureGridDisplay::setIntensity] (lines 274 to 279). *)
Definition setIntensity (intensity : double) : Color :=
  let i := Double.std_max (Fin 0) (Double.std_min (Fin 1) intensity) in
  mkColor i i i.

(** The accumulation loop of the texture mode (lines 399 to 402), from face
    [i] on: [cell_texture] is a [float], [obs] an [unsigned int]. *)
Fixpoint accumulate_faces (n : TextureOcTreeNode) (count : nat) (i : Z)
    (cell_texture : double) (obs : Z) : double * Z :=
  match count with
  | O => (cell_texture, obs)
  | S count' =>
      accumulate_faces n count' (i + 1)
        (Double.add cell_texture
           (Double.of_Z (getFaceValue n i * getFaceObservations n i)))
        (u32 (obs + getFaceObservations n i))
  end.

(** The arithmetic of the texture mode (lines 399 to 407) on the value
    [indeterminate] that the accumulator [cell_texture], declared without an
    initial value at line 391, holds when the loop starts. The sums and the
    quotient are taken exactly: the rounding of the [float] accumulator is
    not applied here. *)
Definition texture_intensity (indeterminate : double) (n : TextureOcTreeNode)
    : double :=
  let '(cell_texture, obs) := accumulate_faces n 6 0 indeterminate 0 in
  if obs <? 1 then Fin 0
  else Double.div cell_texture (Double.mul (Double.of_Z obs) (Fin 255)).

(** The read of a local variable that was declared without an initial value
    and has not been assigned since. The standard gives the read no meaning,
    whatever value [held] the variable's storage holds in a given run. *)
Definition read_unassigned (held : double) : outcome double := Undefined.

(** The colour of an emitted voxel (lines 394 to 419). In the texture mode
    the first [+=] of line 400 reads [cell_texture] before anything was
    stored in it; in the probability mode the occupancy is narrowed to the
    [float cell_probability] and the red channel is a [float] difference. *)
Definition voxel_color (octree_color_mode : Z) (color_factor_ : double)
    (minZ maxZ : double) (indeterminate : double) (it : leaf_iterator)
    : outcome Color :=
  match octree_color_mode with
  | 0 =>
      run cell_texture <~ read_unassigned indeterminate in
      Done (setIntensity (texture_intensity cell_texture (it_node it)))
  | 1 => setColor (getZ it) minZ maxZ color_factor_
  | 2 =>
      let cell_probability := Float.of_double (getOccupancy (it_node it)) in
      Done (mkColor (Float.sub (Fin 1) cell_probability) cell_probability (Fin 0))
  | _ => Done default_color
  end.

(** ** The display and its collaborators *)

(** [rviz::PointCloud::Point]. *)
Record Point : Type := mkPoint {
  position : double * double * double;
  color : Color
}.

(** [rviz::PointCloud], as far as the display drives it: [clear],
    [setDimensions] and [addPoints]. *)
Record PointCloud : Type := mkCloud {
  dimensions : double * double * double;
  cloud_points : list Point
}.

Definition cloud_clear (c : PointCloud) : PointCloud :=
  {| dimensions := dimensions c; cloud_points := [] |}.

Definition cloud_setDimensions (w h d : double) (c : PointCloud) : PointCloud :=
  {| dimensions := (w, h, d); cloud_points := cloud_points c |}.

Definition cloud_addPoints (pts : list Point) (c : PointCloud) : PointCloud :=
  {| dimensions := dimensions c; cloud_points := cloud_points c ++ pts |}.

(** What [getTransform] fills in: [Ogre::Vector3 pos] and
    [Ogre::Quaternion orient]. *)
Record Pose : Type := mkPose {
  pos : double * double * double;
  orient : double * double * double * double
}.

Inductive StatusLevel : Type := StatusOk | StatusError.

(** One call of [setStatus(level, name, text)]. *)
Record StatusEvent : Type := mkStatus {
  status_level : StatusLevel;
  status_name : string;
  status_text : string
}.

(** The members of [TextureGridDisplay] the pipeline reads and writes. The
    three properties hold the values the panel resolved; [status] lists the
    [setStatus] calls, oldest first; [scene_node_] is the last pose set. *)
Record TextureGridDisplay : Type := mkDisplay {
  new_points_received_ : bool;
  messages_received_ : Z;
  color_factor_ : double;
  tree_depth_property_ : Z;
  tree_depth_property_max : option Z;
  octree_render_property_ : Z;
  octree_coloring_property_ : Z;
  box_size_ : list double;
  cloud_ : list PointCloud;
  point_buf_ : list (list Point);
  new_points_ : list (list Point);
  scene_node_ : option Pose;
  status : list StatusEvent
}.

(** [octomap_msgs::Octomap]: the fields the callback reads. *)
Record Octomap : Type := mkMsg {
  frame_id : string;
  id : string
}.

(** What [msgToMap] returned, seen through the [dynamic_cast] of line 309. *)
Inductive AbstractOcTree : Type :=
| IsTextureOcTree (octomap : TextureOcTree)
| OtherOcTree.

(** The frame manager and the message decoder. [getTransform] answers with
    the position and orientation, [msgToMap] with the tree or nothing. *)
Record DisplayContext : Type := mkContext {
  getTransform : Octomap -> option Pose;
  getFixedFrame : string;
  msgToMap : Octomap -> option AbstractOcTree
}.

Definition setStatus (l : StatusLevel) (name text : string)
    (d : TextureGridDisplay) : TextureGridDisplay :=
  {| new_points_received_ := new_points_received_ d;
     messages_received_ := messages_received_ d;
     color_factor_ := color_factor_ d;
     tree_depth_property_ := tree_depth_property_ d;
     tree_depth_property_max := tree_depth_property_max d;
     octree_render_property_ := octree_render_property_ d;
     octree_coloring_property_ := octree_coloring_property_ d;
     box_size_ := box_size_ d;
     cloud_ := cloud_ d;
     point_buf_ := point_buf_ d;
     new_points_ := new_points_ d;
     scene_node_ := scene_node_ d;
     status := status d ++ [mkStatus l name text] |}.

Definition set_messages_received (n : Z) (d : TextureGridDisplay)
    : TextureGridDisplay :=
  {| new_points_received_ := new_points_received_ d;
     messages_received_ := n;
     color_factor_ := color_factor_ d;
     tree_depth_property_ := tree_depth_property_ d;
     tree_depth_property_max := tree_depth_property_max d;
     octree_render_property_ := octree_render_property_ d;
     octree_coloring_property_ := octree_coloring_property_ d;
     box_size_ := box_size_ d;
     cloud_ := cloud_ d;
     point_buf_ := point_buf_ d;
     new_points_ := new_points_ d;
     scene_node_ := scene_node_ d;
     status := status d |}.

Definition set_scene_node (pose : Pose) (d : TextureGridDisplay)
    : TextureGridDisplay :=
  {| new_points_received_ := new_points_received_ d;
     messages_received_ := messages_received_ d;
     color_factor_ := color_factor_ d;
     tree_depth_property_ := tree_depth_property_ d;
     tree_depth_property_max := tree_depth_property_max d;
     octree_render_property_ := octree_render_property_ d;
     octree_coloring_property_ := octree_coloring_property_ d;
     box_size_ := box_size_ d;
     cloud_ := cloud_ d;
     point_buf_ := point_buf_ d;
     new_points_ := new_points_ d;
     scene_node_ := Some pose;
     status := status d |}.

(** [IntProperty::setMax]: the bound is stored and the value brought under
    it. *)
Definition tree_depth_setMax (max : Z) (d : TextureGridDisplay)
    : TextureGridDisplay :=
  {| new_points_received_ := new_points_received_ d;
     messages_received_ := messages_received_ d;
     color_factor_ := color_factor_ d;
     tree_depth_property_ := Z.min (tree_depth_property_ d) max;
     tree_depth_property_max := Some max;
     octree_render_property_ := octree_render_property_ d;
     octree_coloring_property_ := octree_coloring_property_ d;
     box_size_ := box_size_ d;
     cloud_ := cloud_ d;
     point_buf_ := point_buf_ d;
     new_points_ := new_points_ d;
     scene_node_ := scene_node_ d;
     status := status d |}.

(** The five members the buffer hand-off is made of. *)
Definition set_buffers (flag : bool) (sizes : list double)
    (clouds : list PointCloud) (buf pts : list (list Point))
    (d : TextureGridDisplay) : TextureGridDisplay :=
  {| new_points_received_ := flag;
     messages_received_ := messages_received_ d;
     color_factor_ := color_factor_ d;
     tree_depth_property_ := tree_depth_property_ d;
     tree_depth_property_max := tree_depth_property_max d;
     octree_render_property_ := octree_render_property_ d;
     octree_coloring_property_ := octree_coloring_property_ d;
     box_size_ := sizes;
     cloud_ := clouds;
     point_buf_ := buf;
     new_points_ := pts;
     scene_node_ := scene_node_ d;
     status := status d |}.

(** ** Vectors indexed as the source indexes them *)

(** [v[i]] read: no meaning outside the vector. *)
Definition vec_at {A : Type} (v : list A) (i : Z) : outcome A :=
  if (0 <=? i) then
    match v !! Z.to_nat i with
    | Some a => Done a
    | None => Undefined
    end
  else Undefined.

(** [v[i] = a], and more generally [v[i]] changed by [f]. *)
Definition vec_update {A : Type} (v : list A) (i : Z) (f : A -> A)
    : outcome (list A) :=
  run _ <~ vec_at v i in Done (alter f (Z.to_nat i) v).

(** [&v.front()]: the address of the first element, which an empty vector
    does not have. *)
Definition vec_front {A : Type} (v : list A) : outcome A :=
  match v with
  | a :: _ => Done a
  | [] => Undefined
  end.

(** ** Processing one message (lines 281 to 442) *)

(** [QString::number(n)]. *)
Definition number (n : Z) : string := NilZero.string_of_int (Z.to_int n).

(** Lines 328 to 332, from index [i] on. *)
Fixpoint reset_buffers (octomap : TextureOcTree) (count : nat) (i : Z)
    (buf : list (list Point)) (sizes : list double)
    : outcome (list (list Point) * list double) :=
  match count with
  | O => Done (buf, sizes)
  | S count' =>
      run buf' <~ vec_update buf i (fun _ => []) in
      run sizes' <~ vec_update sizes i (fun _ => getNodeSize octomap (i + 1)) in
      reset_buffers octomap count' (i + 1) buf' sizes'
  end.

(** The body of the traversal loop for one leaf (lines 341 to 427):
    [acc] holds [point_buf_] and [pointCount]; the render mode, the colour
    mode and [color_factor_] are the values the display holds. *)
Definition visit (fuel : nat) (render_mode_mask octree_color_mode : Z)
    (color_factor : double) (octomap : TextureOcTree)
    (indeterminate : double) (it : leaf_iterator)
    (acc : list (list Point) * Z) : outcome (list (list Point) * Z) :=
  if isNodeOccupied (it_node it) then
    run shown <~ display_voxel fuel octomap render_mode_mask it in
    if fst shown then
      run c <~ voxel_color octree_color_mode color_factor
                 (getMetricMinZ octomap) (getMetricMaxZ octomap)
                 indeterminate it in
      let newPoint := mkPoint (getX it, getY it, getZ it) c in
      let depth := u32 (getDepth it) in
      run buf' <~ vec_update (fst acc) (u32 (depth - 1))
                    (fun bucket => bucket ++ [newPoint]) in
      Done (buf', snd acc + 1)
    else Done acc
  else Done acc.

(** The traversal loop (line 338): [n] counts the leaves visited so far and
    selects the indeterminate start value of that leaf's [cell_texture]. *)
Fixpoint traverse (fuel : nat) (render_mode_mask octree_color_mode : Z)
    (color_factor : double) (octomap : TextureOcTree)
    (indeterminate : nat -> double) (n : nat) (its : list leaf_iterator)
    (acc : list (list Point) * Z) : outcome (list (list Point) * Z) :=
  match its with
  | [] => Done acc
  | it :: rest =>
      run acc' <~ visit fuel render_mode_mask octree_color_mode color_factor
                    octomap (indeterminate n) it acc in
      traverse fuel render_mode_mask octree_color_mode color_factor octomap
        indeterminate (S n) rest acc'
  end.

(** Lines 437 and 438, from index [i] on. *)
Fixpoint swap_buffers (count : nat) (i : Z) (pts buf : list (list Point))
    : outcome (list (list Point) * list (list Point)) :=
  match count with
  | O => Done (pts, buf)
  | S count' =>
      run a <~ vec_at pts i in
      run b <~ vec_at buf i in
      swap_buffers count' (i + 1)
        (alter (fun _ => b) (Z.to_nat i) pts)
        (alter (fun _ => a) (Z.to_nat i) buf)
  end.

(** Line 337: the depth the traversal descends to. *)
Definition traversal_depth (d : TextureGridDisplay) (octomap : TextureOcTree)
    : Z :=
  Z.min (u32 (tree_depth_property_ d)) (u32 (getTreeDepth octomap)).

(** Lines 318 to 441: the pass over a decoded tree. *)
Definition process_tree (fuel : nat) (indeterminate : nat -> double)
    (octomap : TextureOcTree) (d : TextureGridDisplay)
    : outcome TextureGridDisplay :=
  let d := tree_depth_setMax (getTreeDepth octomap) d in
  run cleared <~ reset_buffers octomap max_octree_depth_ 0
                   (point_buf_ d) (box_size_ d) in
  let '(buf, sizes) := cleared in
  let treeDepth := traversal_depth d octomap in
  run walked <~ traverse fuel (octree_render_property_ d)
                  (octree_coloring_property_ d) (color_factor_ d) octomap
                  indeterminate 0 (leaves octomap treeDepth) (buf, 0) in
  let '(buf, pointCount) := walked in
  if negb (pointCount =? 0) then
    run swapped <~ swap_buffers max_octree_depth_ 0 (new_points_ d) buf in
    Done (set_buffers true sizes (cloud_ d) (snd swapped) (fst swapped) d)
  else
    Done (set_buffers (new_points_received_ d) sizes (cloud_ d) buf
            (new_points_ d) d).

(** [TextureGridDisplay::incomingMessageCallback]. *)
Definition incomingMessageCallback (fuel : nat) (context_ : DisplayContext)
    (indeterminate : nat -> double) (msg : Octomap) (d : TextureGridDisplay)
    : outcome TextureGridDisplay :=
  let d := set_messages_received (messages_received_ d + 1) d in
  let d := setStatus StatusOk "Messages"
             (number (messages_received_ d) ++ " octomap messages received") d in
  match getTransform context_ msg with
  | None =>
      Done (setStatus StatusError "Message"
              ("Failed to transform from frame [" ++ frame_id msg
               ++ "] to frame [" ++ getFixedFrame context_ ++ "]") d)
  | Some pose =>
      let d := set_scene_node pose d in
      match msgToMap context_ msg with
      | Some (IsTextureOcTree octomap) =>
          process_tree fuel indeterminate octomap d
      | _ =>
          Done (setStatus StatusError "Message"
                  "Failed to create octree structure" d)
      end
  end.

(** ** The render side (lines 456 to 494) *)

(** [TextureGridDisplay::clear]. *)
Definition clear (d : TextureGridDisplay) : TextureGridDisplay :=
  set_buffers (new_points_received_ d) (box_size_ d)
    (map cloud_clear (cloud_ d)) (point_buf_ d) (new_points_ d) d.

(** The loop of [update] (lines 474 to 484), from index [i] on. *)
Fixpoint drain (count : nat) (i : Z) (sizes : list double)
    (clouds : list PointCloud) (pts : list (list Point))
    : outcome (list PointCloud * list (list Point)) :=
  match count with
  | O => Done (clouds, pts)
  | S count' =>
      run size <~ vec_at sizes i in
      run cloud <~ vec_at clouds i in
      run bucket <~ vec_at pts i in
      run first <~ vec_front bucket in
      let cloud :=
        cloud_addPoints bucket
          (cloud_setDimensions size size size (cloud_clear cloud)) in
      drain count' (i + 1) sizes
        (alter (fun _ => cloud) (Z.to_nat i) clouds)
        (alter (fun _ => []) (Z.to_nat i) pts)
  end.

(** [TextureGridDisplay::update]. *)
Definition update (d : TextureGridDisplay) : outcome TextureGridDisplay :=
  if new_points_received_ d then
    run drained <~ drain max_octree_depth_ 0 (box_size_ d) (cloud_ d)
                     (new_points_ d) in
    Done (set_buffers false (box_size_ d) (fst drained) (point_buf_ d)
            (snd drained) d)
  else Done d.

(** [TextureGridDisplay::reset]. *)
Definition reset (d : TextureGridDisplay) : TextureGridDisplay :=
  let d := clear d in
  let d := set_messages_received 0 d in
  setStatus StatusOk "Messages" "0 binary octomap messages received" d.

(** After [onInitialize] the four vectors have [max_octree_depth_] slots. *)
Definition initialized (d : TextureGridDisplay) : Prop :=
  length (box_size_ d) = max_octree_depth_ /\
  length (cloud_ d) = max_octree_depth_ /\
  length (point_buf_ d) = max_octree_depth_ /\
  length (new_points_ d) = max_octree_depth_.

(** ** The neighbourhood of a key, for stating the properties *)

(** The 27 keys of the 3 x 3 x 3 block around [nKey], in the order the three
    loops enumerate them, and the 26 of them that differ from [nKey]. *)
Definition cube (nKey : OcTreeKey) : list OcTreeKey :=
  z ← [k2 nKey - 1; k2 nKey; k2 nKey + 1];
  y ← [k1 nKey - 1; k1 nKey; k1 nKey + 1];
  x ← [k0 nKey - 1; k0 nKey; k0 nKey + 1];
  [mkKey x y z].

Definition neighbors (nKey : OcTreeKey) : list OcTreeKey :=
  List.filter (fun key => negb (key_eqb key nKey)) (cube nKey).

(** The test of line 368 on one neighbour key. *)
Definition neighbor_ok (t : TextureOcTree) (render_mode_mask : Z)
    (key : OcTreeKey) : bool :=
  match search t key default_search_depth with
  | Some n => matches_mask render_mode_mask n
  | None => false
  end.

(** All three coordinates away from both ends of the [unsigned short]
    range. *)
Definition interior (k : OcTreeKey) : Prop :=
  1 <= k0 k <= 65533 /\ 1 <= k1 k <= 65533 /\ 1 <= k2 k <= 65533.

(** The depth a lookup descends to: the library reads depth 0 as the full
    tree depth. *)
Definition lookup_depth (t : TextureOcTree) (depth : Z) : Z :=
  if depth =? 0 then getTreeDepth t else depth.

(** The loops with the guard folded into each step. *)
Definition guarded (g : scan -> scan) (s : scan) : scan :=
  if allNeighborsFound s then g s else s.

Definition scan_keys (t : TextureOcTree) (render_mode_mask : Z)
    (nKey : OcTreeKey) (keys : list OcTreeKey) (s : scan) : scan :=
  fold_left
    (fun s key => guarded (check_neighbor t render_mode_mask nKey key) s)
    keys s.

(** ** Sample trees, messages and display states *)

Module Sample.

Definition occupied_node : TextureOcTreeNode :=
  mkNode true (Fin 1) (fun _ => 0) (fun _ => 0).

(** A leaf of the finest level (depth 16) at [key]. *)
Definition fine_leaf (key : OcTreeKey) : leaf_iterator :=
  mkLeaf occupied_node key 16 (Fin 0) (Fin 0) (Fin 0).

Definition node_size (depth : Z) : double := Fin (1 # 20).

(** A tree whose occupied leaves are the finest-level cells at [keys] and
    nothing else. *)
Definition tree_of_cells (keys : list OcTreeKey) : TextureOcTree :=
  mkTree 16 node_size (Fin (-1)) (Fin 1)
    (fun key _ =>
       if existsb (key_eqb key) keys then Some occupied_node else None)
    (fun _ => map fine_leaf keys).

Definition centre : OcTreeKey := mkKey 32768 32768 32768.

(** A solid 3 x 3 x 3 block of occupied finest-level cells. *)
Definition solid_block : TextureOcTree := tree_of_cells (cube centre).

(** One occupied finest-level cell on the lower boundary of the grid. *)
Definition corner_key : OcTreeKey := mkKey 0 100 100.
Definition lonely_corner : TextureOcTree := tree_of_cells [corner_key].

(** The same cell with occupied cells at the keys [0 - 1] wraps to. *)
Definition wrapped_keys : list OcTreeKey :=
  y ← [99; 100; 101]; z ← [99; 100; 101]; [mkKey 65535 y z].
Definition corner_with_wrapped : TextureOcTree :=
  tree_of_cells (corner_key :: wrapped_keys).

(** One occupied cell on the upper boundary with two occupied neighbours,
    and no cell at the key [65535 + 1] wraps to. *)
Definition top_key : OcTreeKey := mkKey 65535 100 100.
Definition lonely_top : TextureOcTree :=
  tree_of_cells [top_key; mkKey 65534 99 99; mkKey 65535 99 99].

(** A pruned leaf one level above the finest: depth 15, covering the keys
    32768 and 32769 on each axis, with 32769 as the key the iterator
    reports. Any lookup inside the cell ends at this leaf. *)
Definition coarse_key : OcTreeKey := mkKey 32769 32769 32769.
Definition in_coarse_cell (key : OcTreeKey) : bool :=
  (32768 <=? k0 key) && (k0 key <=? 32769) &&
  (32768 <=? k1 key) && (k1 key <=? 32769) &&
  (32768 <=? k2 key) && (k2 key <=? 32769).
Definition coarse_leaf : leaf_iterator :=
  mkLeaf occupied_node coarse_key 15 (Fin 0) (Fin 0) (Fin 0).
Definition coarse_tree : TextureOcTree :=
  mkTree 16 node_size (Fin (-1)) (Fin 1)
    (fun key _ => if in_coarse_cell key then Some occupied_node else None)
    (fun _ => [coarse_leaf]).

(** Eight pruned leaves of depth 15, two finest-level keys wide each:
    the cell with centre key 32771 on every axis and its seven neighbours
    on the positive side. The cells on its negative side (centre key
    32769) hold no node. *)
Definition half_key : OcTreeKey := mkKey 32771 32771 32771.
Definition in_half_block (key : OcTreeKey) : bool :=
  (32770 <=? k0 key) && (k0 key <=? 32773) &&
  (32770 <=? k1 key) && (k1 key <=? 32773) &&
  (32770 <=? k2 key) && (k2 key <=? 32773).
Definition coarse_leaf_at (key : OcTreeKey) : leaf_iterator :=
  mkLeaf occupied_node key 15 (Fin 0) (Fin 0) (Fin 0).
Definition half_enclosed : TextureOcTree :=
  mkTree 16 node_size (Fin (-1)) (Fin 1)
    (fun key _ => if in_half_block key then Some occupied_node else None)
    (fun _ =>
       z ← [32771; 32773]; y ← [32771; 32773]; x ← [32771; 32773];
       [coarse_leaf_at (mkKey x y z)]).

(** One pruned leaf of depth 14, four finest-level keys wide (32768 to 32771
    on each axis, reported with key 32770), in a tree that holds nothing
    else. Any lookup inside the cell ends at this leaf. *)
Definition wide_key : OcTreeKey := mkKey 32770 32770 32770.
Definition in_wide_cell (key : OcTreeKey) : bool :=
  (32768 <=? k0 key) && (k0 key <=? 32771) &&
  (32768 <=? k1 key) && (k1 key <=? 32771) &&
  (32768 <=? k2 key) && (k2 key <=? 32771).
Definition wide_leaf : leaf_iterator :=
  mkLeaf occupied_node wide_key 14 (Fin 0) (Fin 0) (Fin 0).
Definition lone_wide_leaf : TextureOcTree :=
  mkTree 16 node_size (Fin (-1)) (Fin 1)
    (fun key _ => if in_wide_cell key then Some occupied_node else None)
    (fun _ => [wide_leaf]).

(** A tree without any node. *)
Definition empty_tree : TextureOcTree := tree_of_cells [].


Definition msg : Octomap := mkMsg "sensor" "TextureOcTree".

Definition origin : Pose :=
  mkPose (Fin 0, Fin 0, Fin 0) (Fin 1, Fin 0, Fin 0, Fin 0).

Definition context_of (t : TextureOcTree) : DisplayContext :=
  mkContext (fun _ => Some origin) "map" (fun _ => Some (IsTextureOcTree t)).

Definition no_transform : DisplayContext :=
  mkContext (fun _ => None) "map"
    (fun _ => Some (IsTextureOcTree solid_block)).

Definition not_a_texture_tree : DisplayContext :=
  mkContext (fun _ => Some origin) "map" (fun _ => Some OtherOcTree).

Definition indeterminate : nat -> double := fun _ => Fin 0.

Definition old_point : Point :=
  mkPoint (Fin 1, Fin 2, Fin 3) (mkColor (Fin 0) (Fin 1) (Fin 0)).

Definition empty_cloud : PointCloud := mkCloud (Fin 0, Fin 0, Fin 0) [].

(** The display after [onInitialize], set to show occupied voxels with
    probability colours down to depth 16. *)
Definition fresh : TextureGridDisplay :=
  mkDisplay false 0 (Fin (8 # 10)) 16 None
    OCTOMAP_OCCUPIED_VOXELS OCTOMAP_PROBABLILTY_COLOR
    (replicate 16 (Fin 0)) (replicate 16 empty_cloud)
    (replicate 16 []) (replicate 16 []) None [].

(** The display with a pass published and not yet drained: one point in
    the bucket of depth 16. *)
Definition pending : TextureGridDisplay :=
  set_buffers true (replicate 16 (Fin (1 # 20))) (replicate 16 empty_cloud)
    (replicate 16 []) (replicate 15 [] ++ [[old_point]]) fresh.

(** The display with a pass published that put one point in every
    bucket. *)
Definition pending_full : TextureGridDisplay :=
  set_buffers true (replicate 16 (Fin (1 # 20))) (replicate 16 empty_cloud)
    (replicate 16 []) (replicate 16 [old_point]) fresh.

End Sample.

(** A colour channel within [0, 1], and a colour made of such channels. *)
Definition in_unit (a : double) : Prop :=
  exists q, a = Fin q /\ (0 <= q <= 1)%Q.

Definition valid_rgb (c : Color) : Prop :=
  in_unit (red c) /\ in_unit (green c) /\ in_unit (blue c).

(** ** Construction and the subscription life cycle (lines 74 to 224, 496 to 502) *)

(** [v.resize(n)]: the first [n] elements are kept, missing ones are
    value-initialised to [x]. *)
Definition resize {A : Type} (n : nat) (x : A) (v : list A) : list A :=
  take n v ++ replicate (n - length v) x.

(** The pipeline members as the constructor leaves them (lines 74 to 123):
    the defaults of the render property ("Occupied Voxels"), of the colour
    property ("Texture") and of the depth property, and four empty
    vectors. *)
Definition constructed : TextureGridDisplay :=
  mkDisplay false 0 (Fin (8 # 10)) (Z.of_nat max_octree_depth_) None
    OCTOMAP_OCCUPIED_VOXELS OCTOMAP_TEXTURE_COLOR [] [] [] [] None [].

(** [TextureGridDisplay::onInitialize] (lines 125 to 143). [fresh] is the
    cloud [new rviz::PointCloud()] gives once set to draw boxes (its name,
    which differs from slot to slot, is not kept in [PointCloud]); the loop
    stores one in each of the [max_octree_depth_] slots. *)
Definition onInitialize (fresh : PointCloud) (d : TextureGridDisplay)
    : TextureGridDisplay :=
  let sizes := resize max_octree_depth_ (Fin 0) (box_size_ d) in
  let clouds := resize max_octree_depth_ fresh (cloud_ d) in
  let buf := resize max_octree_depth_ [] (point_buf_ d) in
  let pts := resize max_octree_depth_ [] (new_points_ d) in
  let clouds :=
    fold_left (fun cs i => alter (fun _ => fresh) i cs)
      (seq 0 max_octree_depth_) clouds in
  set_buffers (new_points_received_ d) sizes clouds buf pts d.

(** [message_filters::Subscriber<octomap_msgs::Octomap>] as the display
    drives it: the topic and queue size it subscribed with, and whether
    [incomingMessageCallback] was registered on it. *)
Record Subscriber : Type := mkSubscriber {
  subscription : option (string * Z);
  callback_registered : bool
}.

(** The ROS side of the two calls that sit in a [try] block: the text of
    the [ros::Exception] thrown by [sub_->subscribe(nh, topic, queue_size)]
    and by [sub_.reset()], if any. *)
Record Transport : Type := mkTransport {
  subscribe_throws : string -> Z -> option string;
  release_throws : option Subscriber -> option string
}.

(** The display with the members the life cycle uses around those of the
    pipeline: [isEnabled()] of [rviz::Display], the visibility of
    [scene_node_], the queue size and its property, the topic property, the
    subscriber, and the number of [context_->queueRender()] calls. *)
Record Shell : Type := mkShell {
  pipeline : TextureGridDisplay;
  isEnabled : bool;
  scene_visible : bool;
  queue_size_ : Z;
  queue_size_property_ : Z;
  octomap_topic_property_ : string;
  sub_ : option Subscriber;
  renders_queued : nat
}.

Definition with_pipeline (f : TextureGridDisplay -> TextureGridDisplay)
    (s : Shell) : Shell :=
  {| pipeline := f (pipeline s);
     isEnabled := isEnabled s;
     scene_visible := scene_visible s;
     queue_size_ := queue_size_ s;
     queue_size_property_ := queue_size_property_ s;
     octomap_topic_property_ := octomap_topic_property_ s;
     sub_ := sub_ s;
     renders_queued := renders_queued s |}.

Definition set_sub (sub : option Subscriber) (s : Shell) : Shell :=
  {| pipeline := pipeline s;
     isEnabled := isEnabled s;
     scene_visible := scene_visible s;
     queue_size_ := queue_size_ s;
     queue_size_property_ := queue_size_property_ s;
     octomap_topic_property_ := octomap_topic_property_ s;
     sub_ := sub;
     renders_queued := renders_queued s |}.

Definition setVisible (visible : bool) (s : Shell) : Shell :=
  {| pipeline := pipeline s;
     isEnabled := isEnabled s;
     scene_visible := visible;
     queue_size_ := queue_size_ s;
     queue_size_property_ := queue_size_property_ s;
     octomap_topic_property_ := octomap_topic_property_ s;
     sub_ := sub_ s;
     renders_queued := renders_queued s |}.

Definition set_queue_size (n : Z) (s : Shell) : Shell :=
  {| pipeline := pipeline s;
     isEnabled := isEnabled s;
     scene_visible := scene_visible s;
     queue_size_ := n;
     queue_size_property_ := queue_size_property_ s;
     octomap_topic_property_ := octomap_topic_property_ s;
     sub_ := sub_ s;
     renders_queued := renders_queued s |}.

Definition queueRender (s : Shell) : Shell :=
  {| pipeline := pipeline s;
     isEnabled := isEnabled s;
     scene_visible := scene_visible s;
     queue_size_ := queue_size_ s;
     queue_size_property_ := queue_size_property_ s;
     octomap_topic_property_ := octomap_topic_property_ s;
     sub_ := sub_ s;
     renders_queued := S (renders_queued s) |}.

(** [TextureGridDisplay::unsubscribe] (lines 210 to 224). The shared pointer
    is empty once [reset()] was entered, also when releasing the old
    subscriber throws. *)
Definition unsubscribe (ros : Transport) (s : Shell) : Shell :=
  let s := with_pipeline clear s in
  match release_throws ros (sub_ s) with
  | None => set_sub None s
  | Some what =>
      with_pipeline
        (setStatus StatusError "Topic" ("Error unsubscribing: " ++ what))
        (set_sub None s)
  end.

(** [TextureGridDisplay::subscribe] (lines 180 to 208). *)
Definition subscribe (ros : Transport) (s : Shell) : Shell :=
  if negb (isEnabled s) then s
  else
    let s := unsubscribe ros s in
    let topicStr := octomap_topic_property_ s in
    if negb (String.eqb topicStr "") then
      let s := set_sub (Some (mkSubscriber None false)) s in
      match subscribe_throws ros topicStr (queue_size_ s) with
      | None =>
          set_sub (Some (mkSubscriber (Some (topicStr, queue_size_ s)) true)) s
      | Some what =>
          with_pipeline
            (setStatus StatusError "Topic" ("Error subscribing: " ++ what)) s
      end
    else s.

(** [TextureGridDisplay::updateQueueSize] (lines 159 to 164). *)
Definition updateQueueSize (ros : Transport) (s : Shell) : Shell :=
  subscribe ros (set_queue_size (queue_size_property_ s) s).

(** [TextureGridDisplay::onEnable] (lines 166 to 170). *)
Definition onEnable (ros : Transport) (s : Shell) : Shell :=
  subscribe ros (setVisible true s).

(** [TextureGridDisplay::onDisable] (lines 172 to 178). *)
Definition onDisable (ros : Transport) (s : Shell) : Shell :=
  with_pipeline clear (unsubscribe ros (setVisible false s)).

(** [TextureGridDisplay::updateTopic] (lines 496 to 502). *)
Definition updateTopic (ros : Transport) (s : Shell) : Shell :=
  queueRender (subscribe ros (with_pipeline reset (unsubscribe ros s))).

(** ** Further notions for stating properties *)

(** The keys scanned up to and including the first one that fails [ok]. *)
Fixpoint until_first_failure {A : Type} (ok : A -> bool) (l : list A)
    : list A :=
  match l with
  | [] => []
  | a :: l' => a :: (if ok a then until_first_failure ok l' else [])
  end.

(** The members of the buffer hand-off are the same in two displays. *)
Definition same_exchange (d d' : TextureGridDisplay) : Prop :=
  new_points_ d' = new_points_ d /\
  point_buf_ d' = point_buf_ d /\
  box_size_ d' = box_size_ d /\
  new_points_received_ d' = new_points_received_ d.

(** The values the panel resolved are the same in two displays. *)
Definition same_settings (d d' : TextureGridDisplay) : Prop :=
  octree_render_property_ d' = octree_render_property_ d /\
  octree_coloring_property_ d' = octree_coloring_property_ d /\
  color_factor_ d' = color_factor_ d.

Module Scene.

(** A tree with an occupied cell at (65535, 100, 100) and a full row of
    occupied cells along x at y = 99, z = 99. *)
Definition row_key : OcTreeKey := mkKey 65535 100 100.
Definition full_row : TextureOcTree :=
  mkTree 16 Sample.node_size (Fin (-1)) (Fin 1)
    (fun key _ =>
       if ((k1 key =? 99) && (k2 key =? 99)) || key_eqb key row_key
       then Some Sample.occupied_node else None)
    (fun _ => [Sample.fine_leaf row_key]).

(** A leaf reported with depth 0. *)
Definition root_leaf : leaf_iterator :=
  mkLeaf Sample.occupied_node (mkKey 100 100 100) 0 (Fin 0) (Fin 0) (Fin 0).

(** A leaf whose occupancy, 1/2 + 2^-30, is not a binary32 number. *)
Definition unsure_leaf : leaf_iterator :=
  mkLeaf
    (mkNode true (Fin ((1 # 2) + (1 # 1073741824))) (fun _ => 0) (fun _ => 0))
    (mkKey 100 100 100) 16 (Fin 0) (Fin 0) (Fin 0).

Definition quiet : Transport := mkTransport (fun _ _ => None) (fun _ => None).

Definition refusing : Transport :=
  mkTransport (fun _ _ => Some "no master"%string) (fun _ => None).

(** An enabled display subscribed to "/octomap_full" with a published pass
    waiting. *)
Definition running : Shell :=
  mkShell Sample.pending true true 5 10 "/octomap_full"
    (Some (mkSubscriber (Some ("/octomap_full"%string, 5)) true)) 0.

Definition disabled : Shell :=
  mkShell Sample.pending false false 5 10 "/octomap_full" None 0.

End Scene.

(** * Properties *)

(** ** The loops of the neighbour scan *)

Lemma u16_small (z : Z) : 0 <= z < 65536 -> u16 z = z.
Proof. intros H. unfold u16. apply Z.mod_small. lia. Qed.

Lemma for_key_stop fuel bound body k s :
  bound < k -> for_key (S fuel) bound body k s = Done s.
Proof.
  intros H. cbn [for_key].
  replace (k <=? bound) with false by (symmetry; apply Z.leb_gt; lia).
  now rewrite andb_false_r.
Qed.

Lemma for_key_found_all fuel bound body k s :
  allNeighborsFound s = false -> for_key (S fuel) bound body k s = Done s.
Proof. intros H. cbn [for_key]. now rewrite H. Qed.

Lemma for_key_first fuel bound body k s :
  allNeighborsFound s = true -> k <= bound ->
  for_key (S fuel) bound body k s
  = obind (body k s) (for_key fuel bound body (u16 (k + 1))).
Proof.
  intros Hs Hk. cbn [for_key]. rewrite Hs.
  replace (k <=? bound) with true by (symmetry; apply Z.leb_le; lia).
  reflexivity.
Qed.

Lemma for_key_next fuel bound body g k s :
  (forall k s, body k s = Done (g k s)) -> k <= bound -> (1 <= fuel)%nat ->
  for_key (S fuel) bound body k s
  = for_key fuel bound body (u16 (k + 1)) (guarded (g k) s).
Proof.
  intros Hb Hk Hf. unfold guarded.
  destruct (allNeighborsFound s) eqn:E.
  - cbn [for_key]. rewrite E.
    replace (k <=? bound) with true by (symmetry; apply Z.leb_le; lia).
    cbn [andb]. now rewrite Hb.
  - rewrite for_key_found_all by assumption.
    destruct fuel as [|fuel]; [lia|].
    now rewrite for_key_found_all.
Qed.

Lemma for_key_three fuel n body g s :
  (forall k s, body k s = Done (g k s)) -> 1 <= n <= 65533 -> (4 <= fuel)%nat ->
  for_key fuel (n + 1) body (u16 (n - 1)) s
  = Done (fold_left (fun s k => guarded (g k) s) [n - 1; n; n + 1] s).
Proof.
  intros Hb Hn Hf.
  do 4 (destruct fuel as [|fuel]; [lia|]).
  rewrite (u16_small (n - 1)) by lia.
  rewrite (for_key_next _ _ _ g) by (assumption || lia).
  replace (n - 1 + 1) with n by lia. rewrite (u16_small n) by lia.
  rewrite (for_key_next _ _ _ g) by (assumption || lia).
  rewrite (u16_small (n + 1)) by lia.
  rewrite (for_key_next _ _ _ g) by (assumption || lia).
  rewrite (u16_small (n + 1 + 1)) by lia.
  rewrite for_key_stop by lia. reflexivity.
Qed.

Lemma scan_keys_not_found t m nKey keys s :
  allNeighborsFound s = false -> scan_keys t m nKey keys s = s.
Proof.
  revert s. induction keys as [|key keys IH]; intros s H; [reflexivity|].
  cbn. unfold guarded at 2. rewrite H. now apply IH.
Qed.

Lemma guarded_scan_keys t m nKey keys s :
  guarded (scan_keys t m nKey keys) s = scan_keys t m nKey keys s.
Proof.
  unfold guarded. destruct (allNeighborsFound s) eqn:E; [reflexivity|].
  symmetry. now apply scan_keys_not_found.
Qed.

Lemma scan_keys_app t m nKey ks1 ks2 s :
  scan_keys t m nKey (ks1 ++ ks2) s
  = scan_keys t m nKey ks2 (scan_keys t m nKey ks1 s).
Proof. unfold scan_keys. apply fold_left_app. Qed.

(** Away from the ends of the coordinate range the three loops visit the
    block around [nKey], key by key. *)
Lemma neighbor_scan_interior fuel t m nKey :
  interior nKey -> (4 <= fuel)%nat ->
  neighbor_scan fuel t m nKey
  = Done (scan_keys t m nKey (cube nKey)
            {| allNeighborsFound := true; searched := [] |}).
Proof.
  intros (Hx & Hy & Hz) Hf. unfold neighbor_scan.
  set (row y z := [mkKey (k0 nKey - 1) y z; mkKey (k0 nKey) y z;
                   mkKey (k0 nKey + 1) y z]).
  set (slab z := row (k1 nKey - 1) z ++ row (k1 nKey) z ++ row (k1 nKey + 1) z).
  assert (Hrow : forall y z s,
    for_key fuel (k0 nKey + 1)
      (fun x s0 => Done (check_neighbor t m nKey (mkKey x y z) s0))
      (u16 (k0 nKey - 1)) s
    = Done (scan_keys t m nKey (row y z) s)).
  { intros y z s.
    rewrite (for_key_three _ _ _
               (fun x s0 => check_neighbor t m nKey (mkKey x y z) s0))
      by (auto || lia).
    reflexivity. }
  assert (Hslab : forall z s,
    for_key fuel (k1 nKey + 1)
      (fun y s1 =>
         for_key fuel (k0 nKey + 1)
           (fun x s0 => Done (check_neighbor t m nKey (mkKey x y z) s0))
           (u16 (k0 nKey - 1)) s1)
      (u16 (k1 nKey - 1)) s
    = Done (scan_keys t m nKey (slab z) s)).
  { intros z s.
    rewrite (for_key_three _ _ _
               (fun y s1 => scan_keys t m nKey (row y z) s1))
      by (auto || lia).
    cbn [fold_left]. rewrite !guarded_scan_keys.
    unfold slab. now rewrite !scan_keys_app. }
  rewrite (for_key_three _ _ _ (fun z s2 => scan_keys t m nKey (slab z) s2))
    by (auto || lia).
  cbn [fold_left]. rewrite !guarded_scan_keys.
  rewrite <- !scan_keys_app. reflexivity.
Qed.

Lemma check_neighbor_flag t m nKey key s :
  allNeighborsFound (check_neighbor t m nKey key s)
  = allNeighborsFound s && (key_eqb key nKey || neighbor_ok t m key).
Proof.
  unfold check_neighbor, neighbor_ok.
  destruct (key_eqb key nKey); cbn.
  - now rewrite andb_true_r.
  - destruct (search t key default_search_depth) as [n|]; cbn.
    + destruct (matches_mask m n); cbn;
        [now rewrite andb_true_r | now rewrite andb_false_r].
    + now rewrite andb_false_r.
Qed.

Lemma scan_keys_flag t m nKey keys s :
  allNeighborsFound (scan_keys t m nKey keys s)
  = allNeighborsFound s
    && forallb (fun key => key_eqb key nKey || neighbor_ok t m key) keys.
Proof.
  unfold scan_keys. revert s.
  induction keys as [|key keys IH]; intros s; cbn [fold_left forallb].
  - now rewrite andb_true_r.
  - rewrite IH. unfold guarded.
    destruct (allNeighborsFound s) eqn:E; [|now rewrite E].
    now rewrite check_neighbor_flag, E.
Qed.

Lemma forallb_skip_centre (ok : OcTreeKey -> bool) nKey keys :
  forallb (fun key => key_eqb key nKey || ok key) keys
  = forallb ok (List.filter (fun key => negb (key_eqb key nKey)) keys).
Proof.
  induction keys as [|key keys IH]; [reflexivity|].
  cbn. destruct (key_eqb key nKey); cbn; now rewrite IH.
Qed.

(** The value of the flag after the scan of an interior key. *)
Lemma neighbor_scan_interior_flag fuel t m nKey :
  interior nKey -> (4 <= fuel)%nat ->
  exists s, neighbor_scan fuel t m nKey = Done s /\
            allNeighborsFound s = forallb (neighbor_ok t m) (neighbors nKey).
Proof.
  intros Hi Hf. eexists. split; [now apply neighbor_scan_interior|].
  rewrite scan_keys_flag. cbn [allNeighborsFound andb].
  apply forallb_skip_centre.
Qed.

Lemma filter_cons_if {A : Type} (f : A -> bool) a l :
  List.filter f (a :: l)
  = if f a then a :: List.filter f l else List.filter f l.
Proof. reflexivity. Qed.

Lemma neighbors_length nKey : length (neighbors nKey) = 26%nat.
Proof.
  destruct nKey as [x y z]. unfold neighbors, cube.
  cbn [mbind list_bind app k0 k1 k2].
  assert (Hm : forall a, (a - 1 =? a) = false) by (intros; apply Z.eqb_neq; lia).
  assert (Hp : forall a, (a + 1 =? a) = false) by (intros; apply Z.eqb_neq; lia).
  repeat (rewrite filter_cons_if; unfold key_eqb at 1; cbn [k0 k1 k2];
          rewrite ?(Hm x), ?(Hm y), ?(Hm z), ?(Hp x), ?(Hp y), ?(Hp z),
                  ?Z.eqb_refl; cbn [negb andb]).
  reflexivity.
Qed.

Lemma neighbor_ok_false t m key :
  neighbor_ok t m key = false <->
  search t key default_search_depth = None \/
  exists n, search t key default_search_depth = Some n /\
            matches_mask m n = false.
Proof.
  unfold neighbor_ok. destruct (search t key default_search_depth) as [n|].
  - split.
    + intros H. right. now exists n.
    + intros [H|(n' & H & Hn)]; [discriminate|]. now injection H as ->.
  - split; [now left | reflexivity].
Qed.

Lemma neighbor_ok_true t m key :
  neighbor_ok t m key = true <->
  exists n, search t key default_search_depth = Some n /\
            matches_mask m n = true.
Proof.
  unfold neighbor_ok. destruct (search t key default_search_depth) as [n|].
  - split.
    + intros H. now exists n.
    + intros (n' & H & Hn). now injection H as ->.
  - split; [discriminate | now intros (n' & H & _)].
Qed.

(** The decision for a voxel with an interior key, as a boolean formula. *)
Lemma display_voxel_interior fuel t m it :
  (4 <= fuel)%nat -> interior (getKey it) ->
  exists tr,
    display_voxel fuel t m it
    = Done (matches_mask m (it_node it)
            && negb (forallb (neighbor_ok t m) (neighbors (getKey it))), tr).
Proof.
  intros Hf Hi. unfold display_voxel.
  destruct (matches_mask m (it_node it)).
  - destruct (neighbor_scan_interior_flag fuel t m (getKey it) Hi Hf)
      as (s & -> & Hs).
    cbn [obind orb andb]. rewrite Hs. now eexists.
  - now eexists.
Qed.

Lemma fold_guarded_id {A : Type} (ks : list A) s :
  fold_left (fun s (_ : A) => guarded (fun s => s) s) ks s = s.
Proof.
  induction ks as [|k ks IH]; [reflexivity|]. cbn [fold_left].
  replace (guarded (fun s0 => s0) s) with s; [exact IH|].
  unfold guarded. now destruct (allNeighborsFound s).
Qed.

(** A loop over a coordinate that is 0 starts at 65535, above its bound. *)
Lemma for_key_zero fuel body s :
  (1 <= fuel)%nat -> for_key fuel (0 + 1) body (u16 (0 - 1)) s = Done s.
Proof.
  intros Hf. destruct fuel as [|fuel]; [lia|].
  apply for_key_stop. reflexivity.
Qed.

Lemma for_key_skipped fuel n body s :
  (forall k s, body k s = Done s) -> 0 <= n <= 65533 -> (4 <= fuel)%nat ->
  for_key fuel (n + 1) body (u16 (n - 1)) s = Done s.
Proof.
  intros Hb Hn Hf.
  destruct (Z.eq_dec n 0) as [->|Hn0]; [apply for_key_zero; lia|].
  rewrite (for_key_three _ _ _ (fun _ s => s)) by (auto || lia).
  now rewrite fold_guarded_id.
Qed.

Lemma neighbor_scan_zero fuel t m nKey :
  (4 <= fuel)%nat ->
  0 <= k0 nKey <= 65533 -> 0 <= k1 nKey <= 65533 -> 0 <= k2 nKey <= 65533 ->
  k0 nKey = 0 \/ k1 nKey = 0 \/ k2 nKey = 0 ->
  neighbor_scan fuel t m nKey
  = Done {| allNeighborsFound := true; searched := [] |}.
Proof.
  intros Hf Hx Hy Hz H0. unfold neighbor_scan.
  destruct (Z.eq_dec (k2 nKey) 0) as [E2|N2].
  { rewrite E2. apply for_key_zero. lia. }
  apply for_key_skipped; [|lia|lia]. intros z s.
  destruct (Z.eq_dec (k1 nKey) 0) as [E1|N1].
  { rewrite E1. apply for_key_zero. lia. }
  apply for_key_skipped; [|lia|lia]. intros y s1.
  assert (E0 : k0 nKey = 0) by (destruct H0 as [?|[?|?]]; [assumption|lia|lia]).
  rewrite E0. apply for_key_zero. lia.
Qed.

Lemma check_neighbor_other t m nKey key s :
  key_eqb key nKey = false ->
  check_neighbor t m nKey key s
  = {| allNeighborsFound := neighbor_ok t m key && allNeighborsFound s;
       searched := searched s ++ [(key, default_search_depth)] |}.
Proof.
  intros H. unfold check_neighbor, neighbor_ok. rewrite H. cbn.
  destruct (search t key default_search_depth) as [n|]; [|reflexivity].
  now destruct (matches_mask m n).
Qed.

Lemma neighbor_scan_top fuel t m nKey :
  (4 <= fuel)%nat ->
  k0 nKey = 65535 -> 1 <= k1 nKey <= 65533 -> 1 <= k2 nKey <= 65533 ->
  neighbor_ok t m (mkKey 65534 (k1 nKey - 1) (k2 nKey - 1)) = true ->
  neighbor_ok t m (mkKey 65535 (k1 nKey - 1) (k2 nKey - 1)) = true ->
  neighbor_ok t m (mkKey 0 (k1 nKey - 1) (k2 nKey - 1)) = false ->
  neighbor_scan fuel t m nKey
  = Done {| allNeighborsFound := false;
            searched :=
              [(mkKey 65534 (k1 nKey - 1) (k2 nKey - 1), default_search_depth);
               (mkKey 65535 (k1 nKey - 1) (k2 nKey - 1), default_search_depth);
               (mkKey 0 (k1 nKey - 1) (k2 nKey - 1), default_search_depth)] |}.
Proof.
  intros Hf E0 Hy Hz H1 H2 H3. unfold neighbor_scan.
  do 4 (destruct fuel as [|fuel]; [lia|]).
  set (F := S (S (S (S fuel)))).
  assert (Hne : forall x, key_eqb (mkKey x (k1 nKey - 1) (k2 nKey - 1)) nKey
                          = false).
  { intros x. unfold key_eqb. cbn.
    replace (k1 nKey - 1 =? k1 nKey) with false
      by (symmetry; apply Z.eqb_neq; lia).
    now rewrite andb_false_r. }
  assert (Hrow :
    for_key F (k0 nKey + 1)
      (fun x s0 =>
         Done (check_neighbor t m nKey
                 (mkKey x (k1 nKey - 1) (k2 nKey - 1)) s0))
      (u16 (k0 nKey - 1)) {| allNeighborsFound := true; searched := [] |}
    = Done {| allNeighborsFound := false;
              searched :=
                [(mkKey 65534 (k1 nKey - 1) (k2 nKey - 1), default_search_depth);
                 (mkKey 65535 (k1 nKey - 1) (k2 nKey - 1), default_search_depth);
                 (mkKey 0 (k1 nKey - 1) (k2 nKey - 1), default_search_depth)] |}).
  { rewrite E0. unfold F.
    rewrite (for_key_next _ _ _
               (fun x s0 => check_neighbor t m nKey
                              (mkKey x (k1 nKey - 1) (k2 nKey - 1)) s0))
      by (auto; (vm_compute; discriminate) || lia).
    rewrite (for_key_next _ _ _
               (fun x s0 => check_neighbor t m nKey
                              (mkKey x (k1 nKey - 1) (k2 nKey - 1)) s0))
      by (auto; (vm_compute; discriminate) || lia).
    rewrite (for_key_next _ _ _
               (fun x s0 => check_neighbor t m nKey
                              (mkKey x (k1 nKey - 1) (k2 nKey - 1)) s0))
      by (auto; (vm_compute; discriminate) || lia).
    change (u16 (65535 - 1)) with 65534.
    change (u16 (65534 + 1)) with 65535.
    change (u16 (65535 + 1)) with 0.
    unfold guarded at 3. cbn [allNeighborsFound].
    rewrite check_neighbor_other by apply Hne. rewrite H1.
    unfold guarded at 2. cbn [allNeighborsFound andb searched app].
    rewrite check_neighbor_other by apply Hne. rewrite H2.
    unfold guarded at 1. cbn [allNeighborsFound andb searched app].
    rewrite check_neighbor_other by apply Hne. rewrite H3.
    cbn [allNeighborsFound andb searched app].
    now rewrite for_key_found_all. }
  rewrite (u16_small (k2 nKey - 1)), (u16_small (k1 nKey - 1)) in * by lia.
  unfold F at 1. rewrite for_key_first by (reflexivity || lia). cbn beta.
  unfold F at 1. rewrite for_key_first by (reflexivity || lia). cbn beta.
  rewrite Hrow. cbn [obind].
  rewrite for_key_found_all by reflexivity. cbn [obind].
  now rewrite for_key_found_all.
Qed.

(** At the upper end the innermost loop cannot leave: no [unsigned short]
    exceeds a bound of 65535 or 65536, so as long as every neighbour matches
    the scan never ends, whatever the fuel. *)
Lemma for_key_never_ends fuel bound body k s :
  65535 <= bound -> 0 <= k <= 65535 ->
  (forall k s, allNeighborsFound s = true ->
     exists s', body k s = Done s' /\ allNeighborsFound s' = true) ->
  allNeighborsFound s = true ->
  for_key fuel bound body k s = OutOfFuel.
Proof.
  intros Hb Hk Hbody. revert k s Hk.
  induction fuel as [|fuel IH]; intros k s Hk Hs; [reflexivity|].
  rewrite for_key_first by (assumption || lia).
  destruct (Hbody k s Hs) as (s' & -> & Hs'). cbn [obind].
  apply IH; [|exact Hs'].
  unfold u16. pose proof (Z.mod_pos_bound (k + 1) 65536). lia.
Qed.

Lemma neighbor_scan_never_ends fuel t m nKey :
  65534 <= k0 nKey <= 65535 ->
  1 <= k1 nKey <= 65535 -> 1 <= k2 nKey <= 65535 ->
  (forall key, neighbor_ok t m key = true) ->
  neighbor_scan fuel t m nKey = OutOfFuel.
Proof.
  intros Hx Hy Hz Hok. unfold neighbor_scan.
  destruct fuel as [|fuel]; [reflexivity|].
  rewrite for_key_first by (reflexivity || (rewrite u16_small; lia)).
  rewrite for_key_first by (reflexivity || (rewrite u16_small; lia)).
  rewrite for_key_never_ends; [reflexivity|lia| |
    |reflexivity].
  - unfold u16. pose proof (Z.mod_pos_bound (k0 nKey - 1) 65536). lia.
  - intros x s Hs. eexists. split; [reflexivity|].
    rewrite check_neighbor_flag, Hs, Hok. now rewrite orb_true_r.
Qed.

Lemma forallb_false_exists {A : Type} (f : A -> bool) (l : list A) :
  forallb f l = false <-> exists x, In x l /\ f x = false.
Proof.
  induction l as [|a l IH]; cbn [forallb In].
  - split; [discriminate | now intros (x & [] & _)].
  - rewrite andb_false_iff, IH. split.
    + intros [H|(x & Hx & Hf)]; [exists a; auto | exists x; auto].
    + intros (x & [->|Hx] & Hf); [now left | right; now exists x].
Qed.

(** ** The visibility filter *)




(** C2, at a voxel above the finest level. A pruned leaf of depth 15 in a
    tree of depth 16 covers two finest-level keys on each axis and reports
    the upper one, 32769, as its key. Its visibility is decided by three
    lookups; each passes the key alone, so each descends to depth 16 and not
    to the voxel's depth 15, and the keys are one finest-level key apart. The
    first two fall inside the voxel's own cell and return the voxel's own
    node: the voxel is compared with itself, not with a cell of its depth. *)
Lemma coarse_voxel_lookups_at_finest_depth :
  getDepth Sample.coarse_leaf = 15 /\
  getTreeDepth Sample.coarse_tree = 16 /\
  exists shown tr,
    display_voxel 4 Sample.coarse_tree 2 Sample.coarse_leaf = Done (shown, tr) /\
    tr = [(mkKey 32768 32768 32768, 0); (mkKey 32769 32768 32768, 0);
          (mkKey 32770 32768 32768, 0)] /\
    Forall (fun call =>
              lookup_depth Sample.coarse_tree (snd call) = 16 /\
              lookup_depth Sample.coarse_tree (snd call)
              <> getDepth Sample.coarse_leaf) tr /\
    Sample.in_coarse_cell (mkKey 32768 32768 32768) = true /\
    Sample.in_coarse_cell (mkKey 32769 32768 32768) = true /\
    search Sample.coarse_tree (mkKey 32768 32768 32768) default_search_depth
    = Some (it_node Sample.coarse_leaf) /\
    search Sample.coarse_tree (mkKey 32769 32768 32768) default_search_depth
    = Some (it_node Sample.coarse_leaf).
Proof.
  split; [reflexivity|]. split; [reflexivity|].
  eexists _, _. split; [vm_compute; reflexivity|].
  split; [reflexivity|].
  split; [|repeat split; reflexivity].
  repeat constructor; cbn; discriminate.
Qed.

(** What the scan decides for a voxel, at any depth, whose state matches the
    render mask and whose key coordinates lie in 1..65533: the 26 keys
    compared are the voxel's key moved by -1, 0 or +1 on each axis, whatever
    the size of its cell. If one of them has no node, or a node that fails
    the mask test, the voxel is visible; if all of them have a node that
    passes it, the voxel is not visible. *)
Theorem interior_voxel_visibility fuel t render_mode_mask it :
  (4 <= fuel)%nat ->
  interior (getKey it) ->
  matches_mask render_mode_mask (it_node it) = true ->
  length (neighbors (getKey it)) = 26%nat /\
  exists shown tr,
    display_voxel fuel t render_mode_mask it = Done (shown, tr) /\
    ((exists key,
        In key (neighbors (getKey it)) /\
        (search t key default_search_depth = None \/
         exists n, search t key default_search_depth = Some n /\
                   matches_mask render_mode_mask n = false)) ->
     shown = true) /\
    ((forall key,
        In key (neighbors (getKey it)) ->
        exists n, search t key default_search_depth = Some n /\
                  matches_mask render_mode_mask n = true) ->
     shown = false).
Proof.
  intros Hf Hi Hm. split; [apply neighbors_length|].
  destruct (display_voxel_interior fuel t render_mode_mask it Hf Hi)
    as (tr & E).
  rewrite Hm in E. cbn [andb] in E.
  eexists _, tr. split; [exact E|]. split.
  - intros (key & Hin & Hkey).
    apply negb_true_iff, forallb_false_exists.
    exists key. split; [exact Hin|]. now apply neighbor_ok_false.
  - intros Hall. apply negb_false_iff, forallb_forall.
    intros key Hin. apply neighbor_ok_true. now apply Hall.
Qed.

Lemma interior_voxel_visibility_witness :
  (4 <= 4)%nat /\
  interior (getKey Sample.coarse_leaf) /\
  matches_mask 2 (it_node Sample.coarse_leaf) = true /\
  exists shown tr,
    display_voxel 4 Sample.coarse_tree 2 Sample.coarse_leaf
    = Done (shown, tr) /\
    ((exists key,
        In key (neighbors (getKey Sample.coarse_leaf)) /\
        (search Sample.coarse_tree key default_search_depth = None \/
         exists n, search Sample.coarse_tree key default_search_depth = Some n /\
                   matches_mask 2 n = false)) ->
     shown = true) /\
    ((forall key,
        In key (neighbors (getKey Sample.coarse_leaf)) ->
        exists n, search Sample.coarse_tree key default_search_depth = Some n /\
                  matches_mask 2 n = true) ->
     shown = false).
Proof.
  assert (Hf : (4 <= 4)%nat) by lia.
  assert (Hi : interior (getKey Sample.coarse_leaf))
    by (unfold interior; cbn; lia).
  assert (Hm : matches_mask 2 (it_node Sample.coarse_leaf) = true)
    by reflexivity.
  split; [exact Hf|]. split; [exact Hi|]. split; [exact Hm|].
  exact (proj2 (interior_voxel_visibility 4 Sample.coarse_tree 2
                  Sample.coarse_leaf Hf Hi Hm)).
Defined.

(** C3, at a voxel above the finest level. A leaf of depth 15, short of the
    maximum depth 16 of the traversal, whose neighbour cell of the same depth
    on the negative x side holds no node, is not visible. The 26 lookups stay
    within one finest-level key of the key the leaf reports, where they find
    the leaf itself and its neighbours on the positive side. *)
Lemma coarse_voxel_with_gap_hidden :
  In (Sample.coarse_leaf_at Sample.half_key) (leaves Sample.half_enclosed 16) /\
  getDepth (Sample.coarse_leaf_at Sample.half_key) = 15 /\
  Z.min (u32 16) (u32 (getTreeDepth Sample.half_enclosed)) = 16 /\
  matches_mask 2 (it_node (Sample.coarse_leaf_at Sample.half_key)) = true /\
  search Sample.half_enclosed (mkKey 32769 32771 32771) 15 = None /\
  search Sample.half_enclosed (mkKey 32769 32771 32771) default_search_depth
  = None /\
  (forall l, In l (leaves Sample.half_enclosed 16) ->
             k0 (getKey l) <> 32769) /\
  exists tr,
    display_voxel 4 Sample.half_enclosed 2
      (Sample.coarse_leaf_at Sample.half_key) = Done (false, tr) /\
    length tr = 26%nat.
Proof.
  split; [vm_compute; tauto|].
  split; [reflexivity|]. split; [reflexivity|]. split; [reflexivity|].
  split; [reflexivity|]. split; [reflexivity|].
  split.
  { intros l Hl. vm_compute in Hl.
    repeat (destruct Hl as [<-|Hl]; [cbn; lia|]). destruct Hl. }
  eexists. split; vm_compute; reflexivity.
Qed.

(** A pruned leaf four finest-level keys wide, alone in the tree: the 26
    lookups all end at the leaf itself, and it is not displayed although
    none of its neighbour cells holds a node. *)
Lemma lone_coarse_voxel_hidden :
  leaves Sample.lone_wide_leaf 16 = [Sample.wide_leaf] /\
  search Sample.lone_wide_leaf (mkKey 32766 32770 32770) default_search_depth
  = None /\
  search Sample.lone_wide_leaf (mkKey 32774 32770 32770) default_search_depth
  = None /\
  exists tr,
    display_voxel 4 Sample.lone_wide_leaf 2 Sample.wide_leaf
    = Done (false, tr) /\
    length tr = 26%nat /\
    Forall (fun call => Sample.in_wide_cell (fst call) = true) tr.
Proof.
  split; [reflexivity|]. split; [reflexivity|]. split; [reflexivity|].
  eexists. split; [vm_compute; reflexivity|].
  split; [reflexivity|]. repeat constructor.
Qed.

(** X24. Key coordinates are handled as 16-bit unsigned values: [0 - 1] is
    stored as 65535 and [65535 + 1] as 0, while the bound [nKey[i] + 1] is an
    [int]. For a key with a coordinate 0 and no coordinate above 65533 the
    scan ends without a single lookup and with the flag still set, whatever
    the tree holds. For a key with [k[0]] equal to 65535 and the other two
    coordinates in 1..65533, when the nodes at [k[0]] 65534 and 65535 of the
    first row pass the test and the node at the wrapped key 0 of that row
    does not, the scan ends after exactly these three lookups with the flag
    cleared. *)
Theorem boundary_key_scan fuel t render_mode_mask nKey :
  (4 <= fuel)%nat ->
  key_in_range nKey ->
  u16 (0 - 1) = 65535 /\ u16 (65535 + 1) = 0 /\
  (k0 nKey <= 65533 -> k1 nKey <= 65533 -> k2 nKey <= 65533 ->
   k0 nKey = 0 \/ k1 nKey = 0 \/ k2 nKey = 0 ->
   neighbor_scan fuel t render_mode_mask nKey
   = Done {| allNeighborsFound := true; searched := [] |}) /\
  (k0 nKey = 65535 -> 1 <= k1 nKey <= 65533 -> 1 <= k2 nKey <= 65533 ->
   neighbor_ok t render_mode_mask
     (mkKey 65534 (k1 nKey - 1) (k2 nKey - 1)) = true ->
   neighbor_ok t render_mode_mask
     (mkKey 65535 (k1 nKey - 1) (k2 nKey - 1)) = true ->
   neighbor_ok t render_mode_mask
     (mkKey 0 (k1 nKey - 1) (k2 nKey - 1)) = false ->
   neighbor_scan fuel t render_mode_mask nKey
   = Done {| allNeighborsFound := false;
             searched :=
               [(mkKey 65534 (k1 nKey - 1) (k2 nKey - 1), default_search_depth);
                (mkKey 65535 (k1 nKey - 1) (k2 nKey - 1), default_search_depth);
                (mkKey 0 (k1 nKey - 1) (k2 nKey - 1), default_search_depth)] |}).
Proof.
  intros Hf (Hx & Hy & Hz).
  split; [reflexivity|]. split; [reflexivity|]. split.
  - intros Bx By Bz H0. apply neighbor_scan_zero; (assumption || lia).
  - intros E0 Iy Iz H1 H2 H3. now apply neighbor_scan_top.
Qed.

Lemma boundary_key_scan_witness :
  (4 <= 4)%nat /\
  key_in_range Sample.corner_key /\
  key_in_range Sample.top_key /\
  neighbor_scan 4 Sample.corner_with_wrapped 2 Sample.corner_key
  = Done {| allNeighborsFound := true; searched := [] |} /\
  neighbor_scan 4 Sample.lonely_top 2 Sample.top_key
  = Done {| allNeighborsFound := false;
            searched := [(mkKey 65534 99 99, 0); (mkKey 65535 99 99, 0);
                         (mkKey 0 99 99, 0)] |}.
Proof.
  assert (Hf : (4 <= 4)%nat) by lia.
  assert (Hc : key_in_range Sample.corner_key)
    by (unfold key_in_range; cbn; lia).
  assert (Ht : key_in_range Sample.top_key)
    by (unfold key_in_range; cbn; lia).
  split; [exact Hf|]. split; [exact Hc|]. split; [exact Ht|]. split.
  - apply (proj1 (proj2 (proj2
             (boundary_key_scan 4 Sample.corner_with_wrapped 2
                Sample.corner_key Hf Hc)))); cbn; lia.
  - apply (proj2 (proj2 (proj2
             (boundary_key_scan 4 Sample.lonely_top 2 Sample.top_key Hf Ht))));
      (reflexivity || (cbn; lia)).
Defined.

(** C10, at a voxel on the lower boundary of the grid. For the cell with key
    (0, 100, 100) the start value [0 - 1] is stored as 65535, yet no
    neighbour is looked up, neither at the wrapped key 65535 nor anywhere
    else, and the voxel stays hidden whether the tree holds nodes at the
    wrapped keys or not, also when it has no neighbour at all. *)
Lemma zero_coordinate_no_lookup :
  k0 Sample.corner_key = 0 /\
  u16 (k0 Sample.corner_key - 1) = 65535 /\
  search Sample.lonely_corner (mkKey 65535 100 100) default_search_depth
  = None /\
  search Sample.corner_with_wrapped (mkKey 65535 100 100) default_search_depth
  = Some Sample.occupied_node /\
  display_voxel 4 Sample.lonely_corner 2 (Sample.fine_leaf Sample.corner_key)
  = Done (false, []) /\
  display_voxel 4 Sample.corner_with_wrapped 2
    (Sample.fine_leaf Sample.corner_key)
  = Done (false, []).
Proof. repeat split; vm_compute; reflexivity. Qed.

(** ** The colour model *)

Lemma lt_Fin x y : Double.lt (Fin x) (Fin y) = true <-> (x < y)%Q.
Proof.
  cbn [Double.lt]. rewrite negb_true_iff. split.
  - intros H. apply Qnot_le_lt. intros Hle.
    apply Qle_bool_iff in Hle. congruence.
  - intros H. destruct (Qle_bool y x) eqn:E; [|reflexivity].
    apply Qle_bool_iff in E. exfalso. exact (Qlt_not_le _ _ H E).
Qed.

Lemma lt_Fin_false x y : Double.lt (Fin x) (Fin y) = false <-> (y <= x)%Q.
Proof.
  cbn [Double.lt]. rewrite negb_false_iff. apply Qle_bool_iff.
Qed.

(** C9, at an empty height range. When the height and both bounds are 0 the
    normalised height is 0 / 0, a NaN that the clamp lets through, and its
    conversion to the sector index has no defined result. *)
Lemma setColor_degenerate_range :
  (0 < 8 # 10 <= 1)%Q /\
  Double.div (Double.sub (Fin 0) (Fin 0)) (Double.sub (Fin 0) (Fin 0)) = NaN /\
  Double.std_min (Double.std_max NaN (Fin 0)) (Fin 1) = NaN /\
  setColor (Fin 0) (Fin 0) (Fin 0) (Fin (8 # 10)) = Undefined.
Proof.
  split; [split; [reflexivity | discriminate]|].
  repeat split; vm_compute; reflexivity.
Qed.

(** The clamp is passed the same way when both differences overflow: with
    the height and the upper bound at 2^1023 and the lower bound at -2^1023
    the normalised height is infinity over infinity. *)
Lemma setColor_overflowing_range :
  Double.sub (Fin (inject_Z (2 ^ 1023))) (Fin (- inject_Z (2 ^ 1023))) = PInf /\
  Double.div PInf PInf = NaN /\
  setColor (Fin (inject_Z (2 ^ 1023))) (Fin (- inject_Z (2 ^ 1023)))
    (Fin (inject_Z (2 ^ 1023))) (Fin (8 # 10)) = Undefined.
Proof. repeat split; vm_compute; reflexivity. Qed.

(** With no observation on any face the texture intensity is 0, whatever
    [cell_texture] held before the loop. *)
Lemma texture_zero_observations indeterminate n :
  (forall i, 0 <= i < 6 -> getFaceObservations n i = 0) ->
  texture_intensity indeterminate n = Fin 0 /\
  setIntensity (texture_intensity indeterminate n)
  = mkColor (Fin 0) (Fin 0) (Fin 0).
Proof.
  intros H. unfold texture_intensity. cbn [accumulate_faces].
  rewrite !H by lia. change (u32 (0 + 0)) with 0.
  split; reflexivity.
Qed.


(** ** Messages that cannot be processed *)

(** C7. When the frame manager has no transform for the message, or the
    payload decodes to nothing or to a tree that is not a texture octree, the
    callback returns after reporting an error under "Message", and the point
    buckets of both generations, the box sizes, the clouds and the dirty flag
    are what they were. *)
Theorem failed_message_leaves_buffers fuel context_ indeterminate msg d :
  getTransform context_ msg = None \/
  msgToMap context_ msg = None \/
  msgToMap context_ msg = Some OtherOcTree ->
  exists d',
    incomingMessageCallback fuel context_ indeterminate msg d = Done d' /\
    (exists text,
       last (status d') = Some (mkStatus StatusError "Message" text)) /\
    point_buf_ d' = point_buf_ d /\
    new_points_ d' = new_points_ d /\
    box_size_ d' = box_size_ d /\
    cloud_ d' = cloud_ d /\
    new_points_received_ d' = new_points_received_ d.
Proof.
  intros H. unfold incomingMessageCallback.
  destruct (getTransform context_ msg) as [pose|].
  - destruct (msgToMap context_ msg) as [[octomap|]|].
    + destruct H as [H|[H|H]]; discriminate.
    + eexists. split; [reflexivity|].
      split; [eexists; apply last_snoc|]. repeat split.
    + eexists. split; [reflexivity|].
      split; [eexists; apply last_snoc|]. repeat split.
  - eexists. split; [reflexivity|].
    split; [eexists; apply last_snoc|]. repeat split.
Qed.

Lemma failed_message_leaves_buffers_witness :
  getTransform Sample.no_transform Sample.msg = None /\
  msgToMap Sample.not_a_texture_tree Sample.msg = Some OtherOcTree /\
  (exists d',
     incomingMessageCallback 4 Sample.no_transform Sample.indeterminate
       Sample.msg Sample.pending = Done d' /\
     last (status d')
     = Some (mkStatus StatusError "Message"
               "Failed to transform from frame [sensor] to frame [map]") /\
     new_points_ d' = new_points_ Sample.pending /\
     new_points_received_ d' = new_points_received_ Sample.pending) /\
  (exists d',
     incomingMessageCallback 4 Sample.not_a_texture_tree Sample.indeterminate
       Sample.msg Sample.pending = Done d' /\
     last (status d')
     = Some (mkStatus StatusError "Message"
               "Failed to create octree structure") /\
     new_points_ d' = new_points_ Sample.pending /\
     new_points_received_ d' = new_points_received_ Sample.pending).
Proof.
  assert (H1 : getTransform Sample.no_transform Sample.msg = None)
    by reflexivity.
  assert (H2 : msgToMap Sample.not_a_texture_tree Sample.msg
               = Some OtherOcTree) by reflexivity.
  split; [exact H1|]. split; [exact H2|]. split.
  - destruct (failed_message_leaves_buffers 4 Sample.no_transform
                Sample.indeterminate Sample.msg Sample.pending
                (or_introl H1))
      as (d' & Hd & _ & _ & Hpts & _ & _ & Hflag).
    exists d'. split; [exact Hd|].
    split; [|split; [exact Hpts | exact Hflag]].
    vm_compute in Hd. injection Hd as <-. reflexivity.
  - destruct (failed_message_leaves_buffers 4 Sample.not_a_texture_tree
                Sample.indeterminate Sample.msg Sample.pending
                (or_intror (or_intror H2)))
      as (d' & Hd & _ & _ & Hpts & _ & _ & Hflag).
    exists d'. split; [exact Hd|].
    split; [|split; [exact Hpts | exact Hflag]].
    vm_compute in Hd. injection Hd as <-. reflexivity.
Defined.

(** ** The render side *)

(** A vector of [max_octree_depth_] slots, slot by slot. *)
Ltac sixteen l H :=
  unfold max_octree_depth_ in H;
  do 16 (destruct l as [|? l]; [discriminate H|]);
  destruct l; [clear H|discriminate H].

(** C6, as the code has it. [reset] empties every cloud the renderer draws
    from, sets the message counter to 0 and reports it; the buckets of both
    generations, the box sizes and the dirty flag are what they were before
    the call. *)
Theorem reset_clears_clouds_only d :
  Forall (fun c => cloud_points c = []) (cloud_ (reset d)) /\
  length (cloud_ (reset d)) = length (cloud_ d) /\
  messages_received_ (reset d) = 0 /\
  last (status (reset d))
  = Some (mkStatus StatusOk "Messages" "0 binary octomap messages received") /\
  new_points_ (reset d) = new_points_ d /\
  point_buf_ (reset d) = point_buf_ d /\
  box_size_ (reset d) = box_size_ d /\
  new_points_received_ (reset d) = new_points_received_ d.
Proof.
  split.
  { cbn. apply List.Forall_map. apply Forall_forall. reflexivity. }
  split; [cbn; apply length_map|].
  split; [reflexivity|].
  split; [apply last_snoc|].
  repeat split.
Qed.

(** C6 fails as stated: after [reset] on a display with a published pass
    waiting, the dirty flag is still set and the buckets still hold the
    points of that pass; the next [update] draws them. *)
Lemma reset_keeps_pending_pass :
  new_points_received_ (reset Sample.pending_full) = true /\
  new_points_ (reset Sample.pending_full) !! 15%nat = Some [Sample.old_point] /\
  exists d',
    update (reset Sample.pending_full) = Done d' /\
    cloud_points <$> cloud_ d' !! 15%nat = Some [Sample.old_point].
Proof.
  split; [reflexivity|]. split; [reflexivity|].
  eexists. split; vm_compute; reflexivity.
Qed.

Lemma vec_at_not_running {A : Type} (v : list A) i :
  vec_at v i <> OutOfFuel.
Proof.
  unfold vec_at. destruct (0 <=? i); [|discriminate].
  destruct (v !! Z.to_nat i); discriminate.
Qed.

(** The loop of [update] does not get past an empty bucket. *)
Lemma drain_empty_bucket count i sizes clouds pts (j : nat) :
  0 <= i -> i <= Z.of_nat j < i + Z.of_nat count ->
  pts !! j = Some [] ->
  drain count i sizes clouds pts = Undefined.
Proof.
  revert i clouds pts.
  induction count as [|count IH]; intros i clouds pts Hi Hj Hpts; [lia|].
  cbn [drain].
  destruct (vec_at sizes i) as [size| |] eqn:Es; cbn [obind];
    [|reflexivity|now apply vec_at_not_running in Es].
  destruct (vec_at clouds i) as [cloud| |] eqn:Ec; cbn [obind];
    [|reflexivity|now apply vec_at_not_running in Ec].
  destruct (vec_at pts i) as [bucket| |] eqn:Eb; cbn [obind];
    [|reflexivity|now apply vec_at_not_running in Eb].
  destruct (Z.eq_dec i (Z.of_nat j)) as [->|Hne].
  - unfold vec_at in Eb. rewrite Nat2Z.id, Hpts in Eb.
    destruct (0 <=? Z.of_nat j); [|discriminate].
    injection Eb as <-. reflexivity.
  - destruct bucket as [|first bucket]; [reflexivity|]. cbn [vec_front obind].
    apply IH; [lia|lia|].
    rewrite list_lookup_alter_ne; [exact Hpts|]. lia.
Qed.

(** With a point in each of the sixteen buckets [update] hands every bucket
    to its cloud, empties the buckets and clears the dirty flag. *)
Lemma update_full_buckets d :
  initialized d ->
  new_points_received_ d = true ->
  Forall (fun bucket => bucket <> []) (new_points_ d) ->
  exists d',
    update d = Done d' /\
    cloud_points <$> cloud_ d' = new_points_ d /\
    new_points_ d' = replicate max_octree_depth_ [] /\
    new_points_received_ d' = false.
Proof.
  intros (Hsz & Hcl & _ & Hpts) Hflag Hne. unfold update. rewrite Hflag.
  destruct d as [flag cnt cf prop pmax render colouring sizes clouds buf pts
                   node st].
  cbn [box_size_ cloud_ new_points_ point_buf_] in *.
  sixteen sizes Hsz. sixteen clouds Hcl. sixteen pts Hpts.
  repeat match goal with
         | H : Forall _ (?b :: _) |- _ =>
             let Hb := fresh in
             apply Forall_cons_1 in H; destruct H as (Hb & H);
             destruct b; [now contradiction Hb | clear Hb]
         end.
  eexists. split; [reflexivity|]. repeat split.
Qed.

(** C4 at the failing inputs. When the dirty flag is set and one of the
    sixteen buckets is empty, [update] takes the address of the first element
    of an empty vector ([&new_points_[i].front()]) and has no defined
    result. *)
Theorem update_empty_bucket_undefined d (i : nat) :
  new_points_received_ d = true ->
  (i < max_octree_depth_)%nat ->
  new_points_ d !! i = Some [] ->
  update d = Undefined.
Proof.
  intros Hflag Hi Hempty. unfold update. rewrite Hflag.
  rewrite (drain_empty_bucket _ _ _ _ _ i); [reflexivity|lia| |exact Hempty].
  unfold max_octree_depth_ in *. lia.
Qed.

Lemma update_empty_bucket_undefined_witness :
  new_points_received_ Sample.pending = true /\
  (0 < max_octree_depth_)%nat /\
  new_points_ Sample.pending !! 0%nat = Some [] /\
  new_points_ Sample.pending !! 15%nat = Some [Sample.old_point] /\
  update Sample.pending = Undefined.
Proof.
  assert (Hf : new_points_received_ Sample.pending = true) by reflexivity.
  assert (Hi : (0 < max_octree_depth_)%nat) by (unfold max_octree_depth_; lia).
  assert (He : new_points_ Sample.pending !! 0%nat = Some []) by reflexivity.
  split; [exact Hf|]. split; [exact Hi|]. split; [exact He|].
  split; [reflexivity|].
  exact (update_empty_bucket_undefined Sample.pending 0 Hf Hi He).
Defined.

(** ** One pass over a decoded tree *)

Lemma reset_buffers_done octomap (buf : list (list Point)) (sizes : list double) :
  length buf = max_octree_depth_ -> length sizes = max_octree_depth_ ->
  reset_buffers octomap max_octree_depth_ 0 buf sizes
  = Done (replicate max_octree_depth_ [],
          getNodeSize octomap <$> seqZ 1 16).
Proof.
  intros Hb Hs. sixteen buf Hb. sixteen sizes Hs. reflexivity.
Qed.

Lemma swap_buffers_done (pts buf : list (list Point)) :
  length pts = max_octree_depth_ -> length buf = max_octree_depth_ ->
  swap_buffers max_octree_depth_ 0 pts buf = Done (buf, pts).
Proof.
  intros Hp Hb. sixteen pts Hp. sixteen buf Hb. reflexivity.
Qed.

Lemma vec_update_done {A : Type} (v v' : list A) i f :
  vec_update v i f = Done v' ->
  exists a, v !! Z.to_nat i = Some a /\ v' = alter f (Z.to_nat i) v.
Proof.
  unfold vec_update, vec_at. destruct (0 <=? i); [|discriminate].
  destruct (v !! Z.to_nat i) as [a|]; [|discriminate].
  cbn [obind]. intros H. injection H as <-. now exists a.
Qed.

Lemma concat_alter_push (v : list (list Point)) (i : nat) b p :
  v !! i = Some b ->
  length (concat (alter (fun bucket => bucket ++ [p]) i v))
  = S (length (concat v)).
Proof.
  revert i. induction v as [|b0 v IH]; intros i H; [discriminate|].
  destruct i as [|i]; cbn in *.
  - rewrite !length_app. cbn. lia.
  - rewrite !length_app, (IH i H). lia.
Qed.

Lemma visit_length fuel m cm cf octomap g it acc acc' :
  visit fuel m cm cf octomap g it acc = Done acc' ->
  length (fst acc') = length (fst acc) /\
  snd acc' - snd acc
  = Z.of_nat (length (concat (fst acc'))) - Z.of_nat (length (concat (fst acc))).
Proof.
  unfold visit. destruct (isNodeOccupied (it_node it)).
  2:{ intros H. injection H as <-. split; [reflexivity | lia]. }
  destruct (display_voxel fuel octomap m it) as [[shown tr]| |];
    cbn [obind fst]; try discriminate.
  destruct shown.
  2:{ intros H. injection H as <-. split; [reflexivity | lia]. }
  destruct (voxel_color cm cf (getMetricMinZ octomap) (getMetricMaxZ octomap)
              g it) as [c| |]; cbn [obind]; try discriminate.
  destruct (vec_update (fst acc) (u32 (u32 (getDepth it) - 1)) _)
    as [buf'| |] eqn:E; cbn [obind]; try discriminate.
  intros H. injection H as <-. cbn [fst snd].
  apply vec_update_done in E. destruct E as (b & Hb & ->).
  split; [apply length_alter|].
  rewrite (concat_alter_push _ _ b) by exact Hb. lia.
Qed.

Lemma traverse_length fuel m cm cf octomap indet n its acc acc' :
  traverse fuel m cm cf octomap indet n its acc = Done acc' ->
  length (fst acc') = length (fst acc) /\
  snd acc' - snd acc
  = Z.of_nat (length (concat (fst acc'))) - Z.of_nat (length (concat (fst acc))).
Proof.
  revert n acc. induction its as [|it its IH]; intros n acc H; cbn [traverse] in H.
  - injection H as <-. split; [reflexivity | lia].
  - destruct (visit fuel m cm cf octomap (indet n) it acc) as [acc1| |] eqn:E;
      cbn [obind] in H; try discriminate.
    apply visit_length in E. apply IH in H.
    destruct E as (E1 & E2), H as (H1 & H2). split; [congruence | lia].
Qed.

Lemma concat_replicate_nil {A : Type} n : concat (replicate n (@nil A)) = [].
Proof. induction n as [|n IH]; [reflexivity | exact IH]. Qed.

(** C5, as the code has it. After a pass over a decoded and transformed
    message whose traversal ends, [pointCount] is the number of points the
    pass put into its buckets, which were filled starting from empty ones.
    If the pass produced at least one point, the exchanged buffer
    [new_points_] holds exactly the buckets of this pass, the dirty flag is
    set and the former content of [new_points_] is left in the working
    buffer. If the pass produced no point, line 431 skips the exchange:
    [new_points_] and the dirty flag keep their former values. *)
Theorem pass_replaces_pending_when_points fuel context_ indeterminate msg d
    pose octomap buckets pointCount :
  initialized d ->
  getTransform context_ msg = Some pose ->
  msgToMap context_ msg = Some (IsTextureOcTree octomap) ->
  traverse fuel (octree_render_property_ d) (octree_coloring_property_ d)
    (color_factor_ d) octomap indeterminate 0
    (leaves octomap
       (traversal_depth (tree_depth_setMax (getTreeDepth octomap) d) octomap))
    (replicate max_octree_depth_ [], 0)
  = Done (buckets, pointCount) ->
  length buckets = max_octree_depth_ /\
  pointCount = Z.of_nat (length (concat buckets)) /\
  exists d',
    incomingMessageCallback fuel context_ indeterminate msg d = Done d' /\
    box_size_ d' = getNodeSize octomap <$> seqZ 1 16 /\
    cloud_ d' = cloud_ d /\
    (pointCount <> 0 ->
     new_points_ d' = buckets /\
     new_points_received_ d' = true /\
     point_buf_ d' = new_points_ d) /\
    (pointCount = 0 ->
     new_points_ d' = new_points_ d /\
     new_points_received_ d' = new_points_received_ d /\
     point_buf_ d' = buckets).
Proof.
  intros (Hsz & Hcl & Hbuf & Hpts) Htf Hdec Htr.
  destruct (traverse_length _ _ _ _ _ _ _ _ _ _ Htr) as (Hlen & Hcount).
  cbn [fst snd] in Hlen, Hcount.
  rewrite concat_replicate_nil, length_replicate in *. cbn [length] in Hcount.
  split; [exact Hlen|]. split; [lia|].
  unfold incomingMessageCallback. rewrite Htf, Hdec.
  unfold process_tree, traversal_depth in *.
  cbn [tree_depth_setMax set_scene_node setStatus set_messages_received
       point_buf_ box_size_ new_points_ cloud_ new_points_received_
       octree_render_property_ octree_coloring_property_ color_factor_
       tree_depth_property_] in *.
  rewrite reset_buffers_done by assumption. cbn [obind].
  rewrite Htr. cbn [obind].
  destruct (pointCount =? 0) eqn:E; cbn [negb].
  - apply Z.eqb_eq in E. eexists. split; [reflexivity|].
    cbn [set_buffers point_buf_ box_size_ new_points_ cloud_
         new_points_received_].
    repeat split; try reflexivity; intros; congruence.
  - apply Z.eqb_neq in E.
    rewrite swap_buffers_done by congruence. cbn [obind fst snd].
    eexists. split; [reflexivity|].
    cbn [set_buffers point_buf_ box_size_ new_points_ cloud_
         new_points_received_].
    repeat split; try reflexivity; intros; congruence.
Qed.

Lemma pass_replaces_pending_when_points_witness :
  initialized Sample.fresh /\
  getTransform (Sample.context_of Sample.solid_block) Sample.msg
  = Some Sample.origin /\
  msgToMap (Sample.context_of Sample.solid_block) Sample.msg
  = Some (IsTextureOcTree Sample.solid_block) /\
  exists d',
    incomingMessageCallback 4 (Sample.context_of Sample.solid_block)
      Sample.indeterminate Sample.msg Sample.fresh = Done d' /\
    new_points_received_ d' = true /\
    length <$> new_points_ d' !! 15%nat = Some 26%nat /\
    point_buf_ d' = new_points_ Sample.fresh.
Proof.
  assert (Hi : initialized Sample.fresh) by (repeat split; reflexivity).
  assert (Ht : getTransform (Sample.context_of Sample.solid_block) Sample.msg
               = Some Sample.origin) by reflexivity.
  assert (Hm : msgToMap (Sample.context_of Sample.solid_block) Sample.msg
               = Some (IsTextureOcTree Sample.solid_block)) by reflexivity.
  split; [exact Hi|]. split; [exact Ht|]. split; [exact Hm|].
  eassert (Htr :
    traverse 4 (octree_render_property_ Sample.fresh)
      (octree_coloring_property_ Sample.fresh) (color_factor_ Sample.fresh)
      Sample.solid_block Sample.indeterminate 0
      (leaves Sample.solid_block
         (traversal_depth
            (tree_depth_setMax (getTreeDepth Sample.solid_block) Sample.fresh)
            Sample.solid_block))
      (replicate max_octree_depth_ [], 0) = Done (_, 26))
    by (vm_compute; reflexivity).
  destruct (pass_replaces_pending_when_points 4
              (Sample.context_of Sample.solid_block) Sample.indeterminate
              Sample.msg Sample.fresh Sample.origin Sample.solid_block _ 26
              Hi Ht Hm Htr)
    as (_ & _ & d' & Hd & _ & _ & Hpub & _).
  destruct Hpub as (Hn & Hflag & Hbuf); [discriminate|].
  exists d'. split; [exact Hd|]. split; [exact Hflag|].
  split; [rewrite Hn; reflexivity | exact Hbuf].
Defined.

(** C5 fails as stated for a pass without points. A message that decodes to
    a tree without leaves is processed while a published pass is waiting:
    afterwards [new_points_] still holds the point of the earlier pass. The
    same message processed by a clean display leaves the dirty flag
    unset. *)
Lemma empty_pass_keeps_pending :
  getTransform (Sample.context_of Sample.empty_tree) Sample.msg
  = Some Sample.origin /\
  msgToMap (Sample.context_of Sample.empty_tree) Sample.msg
  = Some (IsTextureOcTree Sample.empty_tree) /\
  (exists d',
     incomingMessageCallback 4 (Sample.context_of Sample.empty_tree)
       Sample.indeterminate Sample.msg Sample.pending = Done d' /\
     new_points_ d' !! 15%nat = Some [Sample.old_point]) /\
  (exists d',
     incomingMessageCallback 4 (Sample.context_of Sample.empty_tree)
       Sample.indeterminate Sample.msg Sample.fresh = Done d' /\
     new_points_received_ d' = false).
Proof.
  split; [reflexivity|]. split; [reflexivity|].
  split; eexists; split; vm_compute; reflexivity.
Qed.

(** When the traversal ends: every leaf has a key with no coordinate above
    65533 and a depth from 1 to 16, and the colour mode is one whose colour
    is defined for every voxel. *)
Lemma neighbor_scan_completes fuel t m nKey :
  (4 <= fuel)%nat ->
  0 <= k0 nKey <= 65533 -> 0 <= k1 nKey <= 65533 -> 0 <= k2 nKey <= 65533 ->
  exists s, neighbor_scan fuel t m nKey = Done s.
Proof.
  intros Hf Hx Hy Hz.
  destruct (Z.eq_dec (k0 nKey) 0) as [E0|N0];
    [eexists; apply neighbor_scan_zero; auto|].
  destruct (Z.eq_dec (k1 nKey) 0) as [E1|N1];
    [eexists; apply neighbor_scan_zero; auto|].
  destruct (Z.eq_dec (k2 nKey) 0) as [E2|N2];
    [eexists; apply neighbor_scan_zero; auto|].
  eexists. apply neighbor_scan_interior; [|exact Hf].
  unfold interior. lia.
Qed.

Lemma traverse_completes fuel m cm cf octomap indet n its acc :
  (4 <= fuel)%nat ->
  length (fst acc) = max_octree_depth_ ->
  cm <> OCTOMAP_TEXTURE_COLOR ->
  cm <> OCTOMAP_Z_AXIS_COLOR ->
  (forall it, In it its ->
     (0 <= k0 (getKey it) <= 65533 /\ 0 <= k1 (getKey it) <= 65533 /\
      0 <= k2 (getKey it) <= 65533) /\
     1 <= getDepth it <= 16) ->
  exists acc', traverse fuel m cm cf octomap indet n its acc = Done acc'.
Proof.
  intros Hf Hlen Hct Hcz. revert n acc Hlen.
  induction its as [|it its IH]; intros n acc Hlen Hits; cbn [traverse].
  - now eexists.
  - destruct (Hits it (or_introl eq_refl)) as ((Hx & Hy & Hz) & Hd).
    assert (Hv : exists acc1,
      visit fuel m cm cf octomap (indet n) it acc = Done acc1 /\
      length (fst acc1) = max_octree_depth_).
    { unfold visit. destruct (isNodeOccupied (it_node it)); [|now eexists].
      unfold display_voxel. destruct (matches_mask m (it_node it));
        [|now eexists].
      destruct (neighbor_scan_completes fuel octomap m (getKey it) Hf Hx Hy Hz)
        as (s & ->). cbn [obind fst orb].
      destruct (negb (allNeighborsFound s)); [|now eexists].
      assert (Hc : exists c,
        voxel_color cm cf (getMetricMinZ octomap) (getMetricMaxZ octomap)
          (indet n) it = Done c).
      { unfold voxel_color.
        destruct cm as [|[p|[p|p|]|]|p]; try (eexists; reflexivity).
        - exfalso. now apply Hct.
        - exfalso. now apply Hcz. }
      destruct Hc as (c & ->). cbn [obind].
      unfold vec_update, vec_at, u32.
      rewrite (Z.mod_small (getDepth it)) by lia.
      rewrite (Z.mod_small (getDepth it - 1)) by lia.
      replace (0 <=? getDepth it - 1) with true
        by (symmetry; apply Z.leb_le; lia).
      destruct (lookup_lt_is_Some_2 (fst acc) (Z.to_nat (getDepth it - 1)))
        as (b & ->).
      { rewrite Hlen. unfold max_octree_depth_. lia. }
      cbn [obind]. eexists. split; [reflexivity|].
      cbn [fst]. now rewrite length_alter. }
    destruct Hv as (acc1 & -> & Hlen1). cbn [obind].
    apply IH; [exact Hlen1|]. intros it' Hin. apply Hits. now right.
Qed.

(** * Further properties of the code *)

(** ** The neighbour scan, lookup by lookup *)

Lemma scan_keys_searched t m nKey keys s :
  allNeighborsFound s = true ->
  searched (scan_keys t m nKey keys s)
  = searched s
    ++ List.map (fun key => (key, default_search_depth))
         (until_first_failure (neighbor_ok t m)
            (List.filter (fun key => negb (key_eqb key nKey)) keys)).
Proof.
  unfold scan_keys. revert s.
  induction keys as [|key keys IH]; intros s Hs.
  - cbn. now rewrite app_nil_r.
  - cbn [fold_left]. rewrite filter_cons_if. unfold guarded at 2. rewrite Hs.
    destruct (key_eqb key nKey) eqn:E; cbn [negb].
    + unfold check_neighbor. rewrite E. cbn [negb]. now apply IH.
    + rewrite check_neighbor_other by exact E. rewrite Hs, andb_true_r.
      cbn [until_first_failure List.map].
      destruct (neighbor_ok t m key) eqn:Eok.
      * rewrite IH by reflexivity. cbn [searched].
        now rewrite <- app_assoc.
      * fold (scan_keys t m nKey keys
                {| allNeighborsFound := false;
                   searched := searched s ++ [(key, default_search_depth)] |}).
        now rewrite scan_keys_not_found.
Qed.

Lemma until_first_failure_length {A : Type} (ok : A -> bool) l :
  (length (until_first_failure ok l) <= length l)%nat.
Proof.
  induction l as [|a l IH]; cbn [until_first_failure length]; [lia|].
  destruct (ok a); cbn [length]; lia.
Qed.

(** X1. For a voxel that matches the render mask and whose key coordinates
    lie in 1..65533 the scan looks the 26 neighbour keys up in loop order and
    stops right after the first one without a matching node: the lookups made
    are that prefix, never more than 26, and the voxel is shown exactly when
    the prefix ends at a failing key. *)
Theorem interior_scan_stops_at_first_gap fuel t render_mode_mask it :
  (4 <= fuel)%nat ->
  interior (getKey it) ->
  matches_mask render_mode_mask (it_node it) = true ->
  let ok := neighbor_ok t render_mode_mask in
  let looked_up := until_first_failure ok (neighbors (getKey it)) in
  display_voxel fuel t render_mode_mask it
  = Done (negb (forallb ok (neighbors (getKey it))),
          List.map (fun key => (key, default_search_depth)) looked_up) /\
  (length looked_up <= 26)%nat.
Proof.
  intros Hf Hi Hm ok looked_up. split.
  - unfold display_voxel. rewrite Hm.
    rewrite neighbor_scan_interior by assumption. cbn [obind orb].
    rewrite scan_keys_flag, scan_keys_searched by reflexivity.
    cbn [allNeighborsFound searched andb app].
    now rewrite forallb_skip_centre.
  - unfold looked_up. rewrite <- (neighbors_length (getKey it)).
    apply until_first_failure_length.
Qed.

Lemma interior_scan_stops_at_first_gap_witness :
  (4 <= 4)%nat /\
  interior (getKey Sample.coarse_leaf) /\
  matches_mask 2 (it_node Sample.coarse_leaf) = true /\
  display_voxel 4 Sample.coarse_tree 2 Sample.coarse_leaf
  = Done (negb (forallb (neighbor_ok Sample.coarse_tree 2)
                  (neighbors (getKey Sample.coarse_leaf))),
          List.map (fun key => (key, default_search_depth))
            (until_first_failure (neighbor_ok Sample.coarse_tree 2)
               (neighbors (getKey Sample.coarse_leaf)))).
Proof.
  assert (Hf : (4 <= 4)%nat) by lia.
  assert (Hi : interior (getKey Sample.coarse_leaf))
    by (unfold interior; cbn; lia).
  assert (Hm : matches_mask 2 (it_node Sample.coarse_leaf) = true)
    by reflexivity.
  split; [exact Hf|]. split; [exact Hi|]. split; [exact Hm|].
  exact (proj1 (interior_scan_stops_at_first_gap 4 Sample.coarse_tree 2
                  Sample.coarse_leaf Hf Hi Hm)).
Defined.

Lemma for_key_keeps_running fuel bound body k s :
  65535 <= bound -> 0 <= k <= 65535 ->
  (forall k s, 0 <= k <= 65535 -> allNeighborsFound s = true ->
     exists s', body k s = Done s' /\ allNeighborsFound s' = true) ->
  allNeighborsFound s = true ->
  for_key fuel bound body k s = OutOfFuel.
Proof.
  intros Hb Hk Hbody. revert k s Hk.
  induction fuel as [|fuel IH]; intros k s Hk Hs; [reflexivity|].
  rewrite for_key_first by (assumption || lia).
  destruct (Hbody k s Hk Hs) as (s' & -> & Hs'). cbn [obind].
  apply IH; [|exact Hs'].
  unfold u16. pose proof (Z.mod_pos_bound (k + 1) 65536). lia.
Qed.

(** X2. At the upper end of the key range the scan has no exit but a failed
    lookup. For a voxel with [k[0]] equal to 65534 or 65535 (and the other
    two coordinates not 0), if the row of keys the scan starts with, at
    [k[1] - 1] and [k[2] - 1], holds a matching node at every x from 0 to
    65535, the innermost loop wraps from 65535 to 0 again and again: no
    amount of fuel gives a decision. *)
Theorem top_row_scan_never_returns t render_mode_mask it :
  65534 <= k0 (getKey it) <= 65535 ->
  1 <= k1 (getKey it) <= 65535 ->
  1 <= k2 (getKey it) <= 65535 ->
  matches_mask render_mode_mask (it_node it) = true ->
  (forall x, 0 <= x <= 65535 ->
     neighbor_ok t render_mode_mask
       (mkKey x (k1 (getKey it) - 1) (k2 (getKey it) - 1)) = true) ->
  forall fuel, display_voxel fuel t render_mode_mask it = OutOfFuel.
Proof.
  intros Hx Hy Hz Hm Hrow fuel. unfold display_voxel. rewrite Hm.
  unfold neighbor_scan.
  rewrite (u16_small (k1 (getKey it) - 1)), (u16_small (k2 (getKey it) - 1))
    by lia.
  destruct fuel as [|fuel]; [reflexivity|].
  rewrite for_key_first by (reflexivity || lia). cbn beta.
  rewrite for_key_first by (reflexivity || lia). cbn beta.
  rewrite for_key_keeps_running; [reflexivity|lia| | |reflexivity].
  - unfold u16. pose proof (Z.mod_pos_bound (k0 (getKey it) - 1) 65536). lia.
  - intros x s Hxr Hs. eexists. split; [reflexivity|].
    rewrite check_neighbor_flag, Hs, (Hrow x Hxr). now rewrite orb_true_r.
Qed.

Lemma top_row_scan_never_returns_witness :
  65534 <= k0 (getKey (Sample.fine_leaf Scene.row_key)) <= 65535 /\
  matches_mask 2 (it_node (Sample.fine_leaf Scene.row_key)) = true /\
  (forall x, 0 <= x <= 65535 ->
     neighbor_ok Scene.full_row 2 (mkKey x 99 99) = true) /\
  display_voxel 1000 Scene.full_row 2 (Sample.fine_leaf Scene.row_key)
  = OutOfFuel.
Proof.
  assert (Hx : 65534 <= k0 (getKey (Sample.fine_leaf Scene.row_key)) <= 65535)
    by (cbn; lia).
  assert (Hy : 1 <= k1 (getKey (Sample.fine_leaf Scene.row_key)) <= 65535)
    by (cbn; lia).
  assert (Hz : 1 <= k2 (getKey (Sample.fine_leaf Scene.row_key)) <= 65535)
    by (cbn; lia).
  assert (Hm : matches_mask 2 (it_node (Sample.fine_leaf Scene.row_key)) = true)
    by reflexivity.
  assert (Hrow : forall x, 0 <= x <= 65535 ->
            neighbor_ok Scene.full_row 2 (mkKey x 99 99) = true)
    by (intros x _; reflexivity).
  split; [exact Hx|]. split; [exact Hm|]. split; [exact Hrow|].
  exact (top_row_scan_never_returns Scene.full_row 2
           (Sample.fine_leaf Scene.row_key) Hx Hy Hz Hm Hrow 1000%nat).
Defined.

(** ** Colours of emitted voxels *)

Lemma setIntensity_grey a :
  exists q, setIntensity a = mkColor (Fin q) (Fin q) (Fin q) /\
            (0 <= q <= 1)%Q /\
            (forall x, a = Fin x -> (0 <= x <= 1)%Q -> (q == x)%Q).
Proof.
  unfold setIntensity. destruct a as [x| | |].
  - unfold Double.std_min.
    destruct (Double.lt (Fin x) (Fin 1)) eqn:E1.
    + apply lt_Fin in E1. unfold Double.std_max.
      destruct (Double.lt (Fin 0) (Fin x)) eqn:E0.
      * apply lt_Fin in E0. exists x.
        split; [reflexivity|]. split; [lra|]. intros y Hy _.
        injection Hy as <-. reflexivity.
      * apply lt_Fin_false in E0. exists 0%Q.
        split; [reflexivity|]. split; [lra|]. intros y Hy Hr.
        injection Hy as <-. lra.
    + apply lt_Fin_false in E1. exists 1%Q.
      split; [reflexivity|]. split; [lra|]. intros y Hy Hr.
      injection Hy as <-. lra.
  - exists 1%Q. split; [reflexivity|]. split; [lra | discriminate].
  - exists 0%Q. split; [reflexivity|]. split; [lra | discriminate].
  - exists 1%Q. split; [reflexivity|]. split; [lra | discriminate].
Qed.

(** X3. [setIntensity] enforces what its comment promises for every input:
    whatever double it is given, a rational, an infinity or a NaN, the colour
    is a grey with the three equal channels in [0, 1]; an intensity already
    in [0, 1] is kept; NaN and +infinity give white, -infinity gives
    black. *)
Theorem setIntensity_enforces_unit_range a :
  (exists q,
     setIntensity a = mkColor (Fin q) (Fin q) (Fin q) /\
     (0 <= q <= 1)%Q /\
     (forall x, a = Fin x -> (0 <= x <= 1)%Q -> (q == x)%Q)) /\
  valid_rgb (setIntensity a) /\
  setIntensity NaN = mkColor (Fin 1) (Fin 1) (Fin 1) /\
  setIntensity PInf = mkColor (Fin 1) (Fin 1) (Fin 1) /\
  setIntensity NInf = mkColor (Fin 0) (Fin 0) (Fin 0).
Proof.
  split; [apply setIntensity_grey|]. split; [|repeat split].
  destruct (setIntensity_grey a) as (q & -> & Hq & _).
  unfold valid_rgb, in_unit. cbn [red green blue].
  repeat split; exists q; (split; [reflexivity | exact Hq]).
Qed.

(** ** Narrowing to float *)

Lemma nearest_even_bounds (s : Q) (lo hi : Z) :
  (inject_Z lo <= s <= inject_Z hi)%Q ->
  lo <= Float.nearest_even s <= hi /\
  (Qabs (inject_Z (Float.nearest_even s) - s) <= 1 # 2)%Q.
Proof.
  intros [Hlo Hhi]. unfold Float.nearest_even.
  assert (Hf := Qfloor_le s). assert (Hc := Qlt_floor s).
  assert (Hflo : lo <= Qfloor s).
  { rewrite <- (Qfloor_Z lo). now apply Qfloor_resp_le. }
  assert (Hfhi : Qfloor s <= hi) by (rewrite Zle_Qle; lra).
  set (f := Qfloor s) in *.
  rewrite inject_Z_plus in Hc. change (inject_Z 1) with 1%Q in Hc.
  assert (Hnext : (inject_Z f < s)%Q -> f + 1 <= hi).
  { intros H. assert (H' : (inject_Z f < inject_Z hi)%Q) by lra.
    rewrite <- Zlt_Qlt in H'. lia. }
  assert (Hup : (Qabs (inject_Z (f + 1) - s) <= 1 # 2)%Q <->
                (1 # 2 <= s - inject_Z f)%Q).
  { rewrite inject_Z_plus. change (inject_Z 1) with 1%Q.
    rewrite Qabs_Qle_condition. split; [intros [? ?]|intros ?; split]; lra. }
  assert (Hdown : (Qabs (inject_Z f - s) <= 1 # 2)%Q <->
                  (s - inject_Z f <= 1 # 2)%Q).
  { rewrite Qabs_Qle_condition. split; [intros [? ?]|intros ?; split]; lra. }
  destruct (Qcompare_spec (s - inject_Z f) (1 # 2)) as [E|E|E].
  - destruct (Z.even f).
    + split; [lia|]. apply Hdown. lra.
    + split; [split; [lia | apply Hnext; lra]|]. apply Hup. lra.
  - split; [lia|]. apply Hdown. lra.
  - split; [split; [lia | apply Hnext; lra]|]. apply Hup. lra.
Qed.

Lemma ilog2_unit (q : Q) : (0 < q <= 1)%Q -> Float.ilog2 q <= 0.
Proof.
  intros [Hpos Hle]. unfold Float.ilog2. destruct q as [n d].
  cbn [Qnum Qden].
  assert (Hn : 0 < n) by (unfold Qlt in Hpos; cbn in Hpos; lia).
  assert (Hd : n <= Zpos d) by (unfold Qle in Hle; cbn in Hle; lia).
  assert (H := Z.log2_le_mono (Z.abs n) (Zpos d)).
  destruct (Qle_bool _ _); lia.
Qed.

(** Rounding a rational of [0, 1] to binary32 stays in [0, 1], 0 and 1 being
    binary32 numbers, and moves it by half a unit in the last place at most,
    which is 2^-24 below 1. *)
Lemma round_unit (q : Q) :
  (0 <= q <= 1)%Q ->
  exists r, Float.round q = Fin r /\ (0 <= r <= 1)%Q /\
            (Qabs (r - q) <= 1 # 16777216)%Q.
Proof.
  intros [Hq0 Hq1]. unfold Float.round, Double.is_zero.
  destruct (Qeq_bool q 0) eqn:Ez.
  { apply Qeq_bool_iff in Ez. exists 0%Q. split; [reflexivity|].
    split; [lra|]. apply Qabs_Qle_condition. lra. }
  assert (Hpos : (0 < q)%Q).
  { apply Qnot_le_lt. intros H. assert (E : (q == 0)%Q) by lra.
    apply Qeq_bool_iff in E. congruence. }
  assert (He : -149 <= Float.ulp_exponent q <= -23).
  { unfold Float.ulp_exponent.
    assert (H := ilog2_unit q (conj Hpos Hq1)). lia. }
  set (e := Float.ulp_exponent q) in *.
  assert (Ht : (0 < 2 ^ e)%Q) by (apply Qpower_0_lt; reflexivity).
  assert (Htop : (2 ^ e <= 1 # 8388608)%Q).
  { change (1 # 8388608)%Q with (2 ^ (-23))%Q.
    apply Qpower_le_compat_l; [lia | discriminate]. }
  assert (HK : (inject_Z (2 ^ (- e)) * 2 ^ e == 1)%Q).
  { rewrite Zpower_Qpower by lia. rewrite Qpower_opp.
    change (inject_Z 2) with 2%Q. field. lra. }
  set (t := (2 ^ e)%Q) in *. set (K := 2 ^ (- e)) in *.
  assert (Hs : (q / t * t == q)%Q) by (field; lra).
  set (s := (q / t)%Q) in *.
  assert (Hs0 : (0 <= s)%Q) by nra.
  assert (HsK : (s <= inject_Z K)%Q) by nra.
  destruct (nearest_even_bounds s 0 K (conj Hs0 HsK)) as ([Hm0 HmK] & Hd).
  set (m := Float.nearest_even s) in *.
  apply Qabs_Qle_condition in Hd.
  rewrite Zle_Qle in Hm0, HmK. change (inject_Z 0) with 0%Q in Hm0.
  assert (Hr : (0 <= inject_Z m * t <= 1)%Q) by (split; nra).
  replace (Qle_bool (inject_Z (2 ^ 128)) (Qabs (inject_Z m * t))) with false.
  2:{ symmetry. apply not_true_is_false. intros H.
      apply Qle_bool_iff in H. rewrite Qabs_pos in H by lra.
      assert (H128 : (2 <= inject_Z (2 ^ 128))%Q) by (vm_compute; discriminate).
      lra. }
  eexists. split; [reflexivity|]. rewrite Qred_correct.
  split; [exact Hr|]. apply Qabs_Qle_condition. split; nra.
Qed.

(** A double operation with a result of magnitude 2 at most does not
    overflow. *)
Lemma fin_small (q : Q) : (Qabs q <= 2)%Q -> Double.fin q = Fin q.
Proof.
  intros H. unfold Double.fin.
  replace (Qle_bool Double.overflow_bound (Qabs q)) with false; [reflexivity|].
  symmetry. apply not_true_is_false. intros Hb. apply Qle_bool_iff in Hb.
  assert (Hbig : (3 <= Double.overflow_bound)%Q) by (vm_compute; discriminate).
  lra.
Qed.

(** X6. In probability mode the occupancy is narrowed to a [float] before the
    two channels are computed. For an occupancy p in [0, 1] the colour is
    (r, g, 0), where g is p rounded to binary32, within 2^-24 of p, and r is
    the [float] difference of 1 and g, within 2^-24 of 1 - g; the three
    channels lie in [0, 1]. *)
Theorem probability_color_is_narrowed color_factor minZ maxZ indeterminate
    it (p : Q) :
  getOccupancy (it_node it) = Fin p ->
  (0 <= p <= 1)%Q ->
  exists r g,
    voxel_color OCTOMAP_PROBABLILTY_COLOR color_factor minZ maxZ
      indeterminate it
    = Done (mkColor (Fin r) (Fin g) (Fin 0)) /\
    Float.round p = Fin g /\
    Float.round (1 - g) = Fin r /\
    (0 <= g <= 1)%Q /\ (Qabs (g - p) <= 1 # 16777216)%Q /\
    (0 <= r <= 1)%Q /\ (Qabs (r - (1 - g)) <= 1 # 16777216)%Q /\
    valid_rgb (mkColor (Fin r) (Fin g) (Fin 0)).
Proof.
  intros Hocc Hp.
  destruct (round_unit p Hp) as (g & Eg & Hg & Hdg).
  assert (H1g : (0 <= 1 - g <= 1)%Q) by (unfold Qminus; split; lra).
  destruct (round_unit (1 - g) H1g) as (r & Er & Hr & Hdr).
  exists r, g. split.
  { cbn [voxel_color OCTOMAP_PROBABLILTY_COLOR]. rewrite Hocc.
    cbn [Float.of_double]. rewrite Eg.
    unfold Float.sub. cbn [Double.sub Double.neg Double.add].
    rewrite fin_small by (apply Qabs_Qle_condition; lra).
    cbn [Float.of_double]. fold (Qminus 1 g). now rewrite Er. }
  split; [exact Eg|]. split; [exact Er|].
  split; [exact Hg|]. split; [exact Hdg|].
  split; [exact Hr|]. split; [exact Hdr|].
  unfold valid_rgb, in_unit. cbn [red green blue].
  split; [now exists r|]. split; [now exists g|].
  exists 0%Q. split; [reflexivity | lra].
Qed.

Lemma probability_color_is_narrowed_witness :
  getOccupancy (it_node Scene.unsure_leaf)
  = Fin ((1 # 2) + (1 # 1073741824)) /\
  (0 <= (1 # 2) + (1 # 1073741824) <= 1)%Q /\
  voxel_color OCTOMAP_PROBABLILTY_COLOR (Fin (8 # 10)) (Fin (-1)) (Fin 1) NaN
    Scene.unsure_leaf
  = Done (mkColor (Fin (1 # 2)) (Fin (1 # 2)) (Fin 0)) /\
  exists r g,
    voxel_color OCTOMAP_PROBABLILTY_COLOR (Fin (8 # 10)) (Fin (-1)) (Fin 1) NaN
      Scene.unsure_leaf
    = Done (mkColor (Fin r) (Fin g) (Fin 0)) /\
    (Qabs (g - ((1 # 2) + (1 # 1073741824))) <= 1 # 16777216)%Q /\
    valid_rgb (mkColor (Fin r) (Fin g) (Fin 0)).
Proof.
  assert (Ho : getOccupancy (it_node Scene.unsure_leaf)
               = Fin ((1 # 2) + (1 # 1073741824))) by reflexivity.
  assert (Hp : (0 <= (1 # 2) + (1 # 1073741824) <= 1)%Q)
    by (split; discriminate).
  split; [exact Ho|]. split; [exact Hp|].
  split; [vm_compute; reflexivity|].
  destruct (probability_color_is_narrowed (Fin (8 # 10)) (Fin (-1)) (Fin 1)
              NaN Scene.unsure_leaf _ Ho Hp)
    as (r & g & Hc & _ & _ & _ & Hd & _ & _ & Hv).
  exists r, g. split; [exact Hc|]. split; [exact Hd | exact Hv].
Defined.

(** ** What a pass puts into the buckets *)

Lemma matches_mask_occupied m n :
  isNodeOccupied n = true ->
  matches_mask m n = negb (Z.land OCTOMAP_OCCUPIED_VOXELS m =? 0).
Proof. intros H. unfold matches_mask. now rewrite H. Qed.

Lemma visit_origin fuel m cm cf octomap g it acc acc' i bucket p :
  visit fuel m cm cf octomap g it acc = Done acc' ->
  fst acc' !! i = Some bucket -> In p bucket ->
  (exists bucket0, fst acc !! i = Some bucket0 /\ In p bucket0) \/
  (isNodeOccupied (it_node it) = true /\
   matches_mask m (it_node it) = true /\
   Z.of_nat i = u32 (u32 (getDepth it) - 1) /\
   position p = (getX it, getY it, getZ it)).
Proof.
  unfold visit. destruct (isNodeOccupied (it_node it)) eqn:Eocc.
  2:{ intros H Hb Hp. injection H as <-. left. now exists bucket. }
  unfold display_voxel. destruct (matches_mask m (it_node it)) eqn:Em.
  2:{ cbn [obind fst]. intros H Hb Hp. injection H as <-.
      left. now exists bucket. }
  destruct (neighbor_scan fuel octomap m (getKey it)) as [s| |];
    cbn [obind fst]; try discriminate.
  destruct (false || negb (allNeighborsFound s)).
  2:{ intros H Hb Hp. injection H as <-. left. now exists bucket. }
  destruct (voxel_color cm cf (getMetricMinZ octomap) (getMetricMaxZ octomap)
              g it) as [c| |]; cbn [obind]; try discriminate.
  destruct (vec_update (fst acc) (u32 (u32 (getDepth it) - 1)) _)
    as [buf'| |] eqn:E; cbn [obind]; try discriminate.
  intros H Hb Hp. injection H as <-. cbn [fst] in Hb.
  apply vec_update_done in E. destruct E as (b & Hlook & ->).
  assert (Hidx : 0 <= u32 (u32 (getDepth it) - 1))
    by (unfold u32 at 1; apply Z.mod_pos_bound; lia).
  destruct (Nat.eq_dec i (Z.to_nat (u32 (u32 (getDepth it) - 1)))) as [->|Hne].
  - rewrite list_lookup_alter_eq, Hlook in Hb. cbn in Hb. injection Hb as <-.
    apply in_app_or in Hp. destruct Hp as [Hp|[<-|[]]].
    + left. now exists b.
    + right. repeat split; try reflexivity. now rewrite Z2Nat.id.
  - rewrite list_lookup_alter_ne in Hb by congruence.
    left. now exists bucket.
Qed.

Lemma traverse_origin fuel m cm cf octomap indet n its acc acc' i bucket p :
  traverse fuel m cm cf octomap indet n its acc = Done acc' ->
  fst acc' !! i = Some bucket -> In p bucket ->
  (exists bucket0, fst acc !! i = Some bucket0 /\ In p bucket0) \/
  (exists it,
     In it its /\
     isNodeOccupied (it_node it) = true /\
     matches_mask m (it_node it) = true /\
     Z.of_nat i = u32 (u32 (getDepth it) - 1) /\
     position p = (getX it, getY it, getZ it)).
Proof.
  revert n acc. induction its as [|it its IH]; intros n acc H Hb Hp;
    cbn [traverse] in H.
  - injection H as <-. left. now exists bucket.
  - destruct (visit fuel m cm cf octomap (indet n) it acc) as [acc1| |] eqn:E;
      cbn [obind] in H; try discriminate.
    destruct (IH _ _ H Hb Hp) as [(b1 & Hb1 & Hp1)|(it' & Hin & Hrest)].
    + destruct (visit_origin _ _ _ _ _ _ _ _ _ _ _ _ E Hb1 Hp1)
        as [Hold|Hnew]; [now left|].
      right. exists it. split; [now left | exact Hnew].
    + right. exists it'. split; [now right | exact Hrest].
Qed.

(** X7. The buckets a pass fills from empty hold, at index [i], only points
    of traversed leaves whose depth is [i + 1]: each point has the position
    of an occupied leaf that matches the render mask and was reported by the
    iterator with that depth. *)
Theorem buckets_hold_leaves_of_their_depth fuel render_mode_mask
    octree_color_mode color_factor octomap indeterminate its buckets
    pointCount (i : nat) bucket p :
  traverse fuel render_mode_mask octree_color_mode color_factor octomap
    indeterminate 0 its (replicate max_octree_depth_ [], 0)
  = Done (buckets, pointCount) ->
  buckets !! i = Some bucket ->
  In p bucket ->
  (i < max_octree_depth_)%nat /\
  exists it,
    In it its /\
    u32 (getDepth it) = Z.of_nat i + 1 /\
    position p = (getX it, getY it, getZ it) /\
    isNodeOccupied (it_node it) = true /\
    matches_mask render_mode_mask (it_node it) = true.
Proof.
  intros Htr Hb Hp.
  assert (Hi : (i < max_octree_depth_)%nat).
  { destruct (traverse_length _ _ _ _ _ _ _ _ _ _ Htr) as (Hlen & _).
    cbn [fst] in Hlen. rewrite length_replicate in Hlen.
    rewrite <- Hlen. eapply lookup_lt_Some. exact Hb. }
  split; [exact Hi|].
  destruct (traverse_origin _ _ _ _ _ _ _ _ _ _ _ _ _ Htr Hb Hp)
    as [(b0 & Hb0 & Hp0)|(it & Hin & Hocc & Hm & Hidx & Hpos)].
  - cbn [fst] in Hb0. apply lookup_replicate in Hb0.
    destruct Hb0 as (-> & _). destruct Hp0.
  - exists it. split; [exact Hin|].
    split; [|split; [exact Hpos | split; assumption]].
    unfold max_octree_depth_ in Hi.
    pose proof (Z.mod_pos_bound (getDepth it) 4294967296 eq_refl) as Hd.
    fold (u32 (getDepth it)) in Hd.
    destruct (Z.eq_dec (u32 (getDepth it)) 0) as [E0|N0].
    + rewrite E0 in Hidx. change (u32 (0 - 1)) with 4294967295 in Hidx. lia.
    + unfold u32 at 1 in Hidx. rewrite Z.mod_small in Hidx by lia. lia.
Qed.

Lemma buckets_hold_leaves_of_their_depth_witness :
  exists buckets bucket p,
    traverse 4 2 2 (Fin (8 # 10)) Sample.half_enclosed Sample.indeterminate 0
      (leaves Sample.half_enclosed 16) (replicate max_octree_depth_ [], 0)
    = Done (buckets, 7) /\
    buckets !! 14%nat = Some bucket /\
    In p bucket /\
    (14 < max_octree_depth_)%nat /\
    exists it,
      In it (leaves Sample.half_enclosed 16) /\
      u32 (getDepth it) = Z.of_nat 14 + 1 /\
      position p = (getX it, getY it, getZ it) /\
      isNodeOccupied (it_node it) = true /\
      matches_mask 2 (it_node it) = true.
Proof.
  eassert (Htr :
    traverse 4 2 2 (Fin (8 # 10)) Sample.half_enclosed Sample.indeterminate 0
      (leaves Sample.half_enclosed 16) (replicate max_octree_depth_ [], 0)
    = Done (_, 7)) by (vm_compute; reflexivity).
  match type of Htr with
  | _ = Done (?b, _) =>
      pose (bk := nth 14 b []);
      pose (pt := nth 0 bk Sample.old_point);
      assert (Hb : b !! 14%nat = Some bk) by reflexivity;
      assert (Hp : In pt bk) by (left; reflexivity);
      exists b, bk, pt
  end.
  split; [exact Htr|]. split; [exact Hb|]. split; [exact Hp|].
  exact (buckets_hold_leaves_of_their_depth _ _ _ _ _ _ _ _ _ _ _ _
           Htr Hb Hp).
Defined.

(** The callback on a message that transforms and decodes, once the
    traversal has ended: the state it returns, member by member. *)
Lemma callback_decoded fuel context_ indeterminate msg d pose octomap
    buckets pointCount :
  initialized d ->
  getTransform context_ msg = Some pose ->
  msgToMap context_ msg = Some (IsTextureOcTree octomap) ->
  traverse fuel (octree_render_property_ d) (octree_coloring_property_ d)
    (color_factor_ d) octomap indeterminate 0
    (leaves octomap
       (traversal_depth (tree_depth_setMax (getTreeDepth octomap) d) octomap))
    (replicate max_octree_depth_ [], 0)
  = Done (buckets, pointCount) ->
  exists d',
    incomingMessageCallback fuel context_ indeterminate msg d = Done d' /\
    cloud_ d' = cloud_ d /\
    box_size_ d' = getNodeSize octomap <$> seqZ 1 16 /\
    new_points_ d' = (if pointCount =? 0 then new_points_ d else buckets) /\
    point_buf_ d' = (if pointCount =? 0 then buckets else new_points_ d) /\
    new_points_received_ d'
    = (if pointCount =? 0 then new_points_received_ d else true).
Proof.
  intros (Hsz & Hcl & Hbuf & Hpts) Htf Hdec Htr.
  destruct (traverse_length _ _ _ _ _ _ _ _ _ _ Htr) as (Hlen & _).
  cbn [fst] in Hlen. rewrite length_replicate in Hlen.
  unfold incomingMessageCallback. rewrite Htf, Hdec.
  unfold process_tree, traversal_depth in *.
  cbn [tree_depth_setMax set_scene_node setStatus set_messages_received
       point_buf_ box_size_ new_points_ cloud_ new_points_received_
       octree_render_property_ octree_coloring_property_ color_factor_
       tree_depth_property_] in *.
  rewrite reset_buffers_done by assumption. cbn [obind].
  rewrite Htr. cbn [obind].
  destruct (pointCount =? 0) eqn:E; cbn [negb].
  - eexists. split; [reflexivity|]. repeat split.
  - rewrite swap_buffers_done by congruence. cbn [obind fst snd].
    eexists. split; [reflexivity|]. repeat split.
Qed.

Lemma traverse_mask_excludes fuel m cm cf octomap indet n its acc :
  Z.land OCTOMAP_OCCUPIED_VOXELS m = 0 ->
  traverse fuel m cm cf octomap indet n its acc = Done acc.
Proof.
  intros Hm. revert n. induction its as [|it its IH]; intros n;
    cbn [traverse]; [reflexivity|].
  replace (visit fuel m cm cf octomap (indet n) it acc) with (Done acc);
    [cbn [obind]; apply IH|].
  unfold visit. destruct (isNodeOccupied (it_node it)) eqn:E; [|reflexivity].
  unfold display_voxel. rewrite (matches_mask_occupied _ _ E), Hm.
  reflexivity.
Qed.

(** X8. With the render mode set to free voxels only (any mask without the
    occupied bit) a pass never emits a point: line 341 lets only occupied
    leaves through and line 349 then rejects them. Whatever the tree and
    without a single neighbour lookup, the callback returns with the
    exchanged buffer and the dirty flag as they were and the working buffer
    empty. *)
Theorem free_voxel_mode_emits_nothing fuel context_ indeterminate msg d pose
    octomap :
  initialized d ->
  getTransform context_ msg = Some pose ->
  msgToMap context_ msg = Some (IsTextureOcTree octomap) ->
  Z.land OCTOMAP_OCCUPIED_VOXELS (octree_render_property_ d) = 0 ->
  exists d',
    incomingMessageCallback fuel context_ indeterminate msg d = Done d' /\
    new_points_ d' = new_points_ d /\
    new_points_received_ d' = new_points_received_ d /\
    point_buf_ d' = replicate max_octree_depth_ [] /\
    cloud_ d' = cloud_ d.
Proof.
  intros Hi Htf Hdec Hmask.
  destruct (callback_decoded fuel context_ indeterminate msg d pose octomap
              (replicate max_octree_depth_ []) 0 Hi Htf Hdec
              (traverse_mask_excludes _ _ _ _ _ _ _ _ _ Hmask))
    as (d' & Hd & Hc & _ & Hn & Hb & Hf).
  exists d'. cbn [Z.eqb] in *. repeat split; assumption.
Qed.

Lemma free_voxel_mode_emits_nothing_witness :
  initialized Sample.pending /\
  Z.land OCTOMAP_OCCUPIED_VOXELS OCTOMAP_FREE_VOXELS = 0 /\
  exists d',
    incomingMessageCallback 0 (Sample.context_of Sample.solid_block)
      Sample.indeterminate Sample.msg
      (mkDisplay true 0 (Fin (8 # 10)) 16 None OCTOMAP_FREE_VOXELS
         OCTOMAP_TEXTURE_COLOR (box_size_ Sample.pending)
         (cloud_ Sample.pending) (point_buf_ Sample.pending)
         (new_points_ Sample.pending) None []) = Done d' /\
    new_points_ d' = new_points_ Sample.pending /\
    point_buf_ d' = replicate max_octree_depth_ [].
Proof.
  assert (Hi : initialized Sample.pending) by (repeat split; reflexivity).
  split; [exact Hi|]. split; [reflexivity|].
  destruct (free_voxel_mode_emits_nothing 0
              (Sample.context_of Sample.solid_block) Sample.indeterminate
              Sample.msg
              (mkDisplay true 0 (Fin (8 # 10)) 16 None OCTOMAP_FREE_VOXELS
                 OCTOMAP_TEXTURE_COLOR (box_size_ Sample.pending)
                 (cloud_ Sample.pending) (point_buf_ Sample.pending)
                 (new_points_ Sample.pending) None [])
              Sample.origin Sample.solid_block Hi eq_refl eq_refl eq_refl)
    as (d' & Hd & Hn & _ & Hb & _).
  exists d'. split; [exact Hd|]. split; [exact Hn | exact Hb].
Defined.

(** X9. The bucket of a point is [point_buf_[depth - 1]] in unsigned
    arithmetic, with no check: for a leaf that is shown and coloured the push
    lands in one of the sixteen buckets when the reported depth is 1 to 16,
    and has no defined result when it is 0 (the index wraps to 4294967295)
    or above 16. *)
Theorem push_needs_depth_in_range fuel render_mode_mask octree_color_mode
    color_factor octomap indeterminate it acc tr c :
  isNodeOccupied (it_node it) = true ->
  display_voxel fuel octomap render_mode_mask it = Done (true, tr) ->
  voxel_color octree_color_mode color_factor (getMetricMinZ octomap)
    (getMetricMaxZ octomap) indeterminate it = Done c ->
  length (fst acc) = max_octree_depth_ ->
  0 <= getDepth it < 4294967296 ->
  (1 <= getDepth it <= 16 ->
   visit fuel render_mode_mask octree_color_mode color_factor octomap
     indeterminate it acc
   = Done (alter (fun bucket =>
                    bucket ++ [mkPoint (getX it, getY it, getZ it) c])
             (Z.to_nat (getDepth it - 1)) (fst acc),
           snd acc + 1)) /\
  (getDepth it = 0 \/ 16 < getDepth it ->
   visit fuel render_mode_mask octree_color_mode color_factor octomap
     indeterminate it acc
   = Undefined).
Proof.
  intros Hocc Hshown Hcol Hlen Hd.
  unfold visit. rewrite Hocc, Hshown. cbn [obind fst]. rewrite Hcol.
  cbn [obind]. unfold vec_update, vec_at, u32.
  rewrite (Z.mod_small (getDepth it)) by lia. split.
  - intros Hr. rewrite (Z.mod_small (getDepth it - 1)) by lia.
    replace (0 <=? getDepth it - 1) with true
      by (symmetry; apply Z.leb_le; lia).
    destruct (lookup_lt_is_Some_2 (fst acc) (Z.to_nat (getDepth it - 1)))
      as (b & ->); [|reflexivity].
    rewrite Hlen. unfold max_octree_depth_. lia.
  - intros Hr.
    assert (Hidx : 16 <= (getDepth it - 1) mod 4294967296 < 4294967296).
    { destruct Hr as [->|Hr]; [vm_compute; split; [discriminate|reflexivity]|].
      rewrite Z.mod_small by lia. lia. }
    replace (0 <=? (getDepth it - 1) mod 4294967296) with true
      by (symmetry; apply Z.leb_le; lia).
    rewrite (lookup_ge_None_2 (fst acc)); [reflexivity|].
    rewrite Hlen. unfold max_octree_depth_. lia.
Qed.

Lemma push_needs_depth_in_range_witness :
  display_voxel 4 Sample.empty_tree 2 Scene.root_leaf
  = Done (true, [(mkKey 99 99 99, 0)]) /\
  getDepth Scene.root_leaf = 0 /\
  visit 4 2 2 (Fin (8 # 10)) Sample.empty_tree NaN Scene.root_leaf
    (replicate max_octree_depth_ [], 0) = Undefined /\
  exists acc',
    visit 4 2 2 (Fin (8 # 10)) Sample.empty_tree NaN
      (Sample.fine_leaf (mkKey 100 100 100))
      (replicate max_octree_depth_ [], 0) = Done acc' /\
    snd acc' = 1.
Proof.
  assert (Hs : display_voxel 4 Sample.empty_tree 2 Scene.root_leaf
               = Done (true, [(mkKey 99 99 99, 0)])) by reflexivity.
  assert (Hs' : display_voxel 4 Sample.empty_tree 2
                  (Sample.fine_leaf (mkKey 100 100 100))
               = Done (true, [(mkKey 99 99 99, 0)])) by reflexivity.
  split; [exact Hs|]. split; [reflexivity|]. split.
  - apply (proj2 (push_needs_depth_in_range 4 2 2 (Fin (8 # 10))
                    Sample.empty_tree NaN Scene.root_leaf
                    (replicate max_octree_depth_ [], 0) _ _
                    eq_refl Hs eq_refl eq_refl
                    (conj (Z.le_refl 0) eq_refl))).
    left. reflexivity.
  - eexists. split.
    + apply (proj1 (push_needs_depth_in_range 4 2 2 (Fin (8 # 10))
                      Sample.empty_tree NaN
                      (Sample.fine_leaf (mkKey 100 100 100))
                      (replicate max_octree_depth_ [], 0) _ _
                      eq_refl Hs' eq_refl eq_refl
                      (conj (Zle_0_pos 16) eq_refl))).
      split; discriminate.
    + reflexivity.
Defined.

(** X10. A pass ends with a defined result under conditions that can be
    checked on the display and on every leaf: the display is initialised,
    the message transforms and decodes, four units of fuel are given to each
    loop, the colour mode is neither the texture mode nor the height mode,
    and every traversed leaf has a key with no coordinate above 65533 and a
    depth from 1 to 16. The clouds are left alone and the box sizes are
    those of the tree's levels 1 to 16. *)
Theorem pass_completes fuel context_ indeterminate msg d pose octomap :
  (4 <= fuel)%nat ->
  initialized d ->
  getTransform context_ msg = Some pose ->
  msgToMap context_ msg = Some (IsTextureOcTree octomap) ->
  octree_coloring_property_ d <> OCTOMAP_TEXTURE_COLOR ->
  octree_coloring_property_ d <> OCTOMAP_Z_AXIS_COLOR ->
  (forall it,
     In it (leaves octomap
              (traversal_depth
                 (tree_depth_setMax (getTreeDepth octomap) d) octomap)) ->
     (0 <= k0 (getKey it) <= 65533 /\ 0 <= k1 (getKey it) <= 65533 /\
      0 <= k2 (getKey it) <= 65533) /\
     1 <= getDepth it <= 16) ->
  exists d',
    incomingMessageCallback fuel context_ indeterminate msg d = Done d' /\
    cloud_ d' = cloud_ d /\
    box_size_ d' = getNodeSize octomap <$> seqZ 1 16.
Proof.
  intros Hf Hi Htf Hdec Hct Hcz Hleaves.
  destruct (traverse_completes fuel (octree_render_property_ d)
              (octree_coloring_property_ d) (color_factor_ d) octomap
              indeterminate 0 _ (replicate max_octree_depth_ [], 0) Hf
              (length_replicate _ _) Hct Hcz Hleaves) as ([buckets n] & Htr).
  destruct (callback_decoded _ _ _ _ _ _ _ _ _ Hi Htf Hdec Htr)
    as (d' & Hd & Hc & Hs & _).
  exists d'. repeat split; assumption.
Qed.

Lemma pass_completes_witness :
  (4 <= 4)%nat /\
  initialized Sample.fresh /\
  octree_coloring_property_ Sample.fresh = OCTOMAP_PROBABLILTY_COLOR /\
  length (leaves Sample.solid_block 16) = 27%nat /\
  exists d',
    incomingMessageCallback 4 (Sample.context_of Sample.solid_block)
      Sample.indeterminate Sample.msg Sample.fresh = Done d' /\
    cloud_ d' = cloud_ Sample.fresh /\
    length <$> new_points_ d' !! 15%nat = Some 26%nat.
Proof.
  assert (Hf : (4 <= 4)%nat) by lia.
  assert (Hi : initialized Sample.fresh) by (repeat split; reflexivity).
  split; [exact Hf|]. split; [exact Hi|].
  split; [reflexivity|]. split; [reflexivity|].
  destruct (pass_completes 4 (Sample.context_of Sample.solid_block)
              Sample.indeterminate Sample.msg Sample.fresh Sample.origin
              Sample.solid_block Hf Hi eq_refl eq_refl)
    as (d' & Hd & Hc & _).
  - discriminate.
  - discriminate.
  - intros it Hin. vm_compute in Hin.
    repeat (destruct Hin as [<-|Hin]; [cbn; lia|]). destruct Hin.
  - exists d'. split; [exact Hd|]. split; [exact Hc|].
    assert (Hrun : exists d0,
      incomingMessageCallback 4 (Sample.context_of Sample.solid_block)
        Sample.indeterminate Sample.msg Sample.fresh = Done d0 /\
      length <$> new_points_ d0 !! 15%nat = Some 26%nat)
      by (eexists; split; vm_compute; reflexivity).
    destruct Hrun as (d0 & Hd0 & Hn). rewrite Hd in Hd0.
    injection Hd0 as <-. exact Hn.
Defined.

Lemma process_tree_frame fuel indet octomap d d' :
  process_tree fuel indet octomap d = Done d' ->
  messages_received_ d' = messages_received_ d /\
  status d' = status d /\
  scene_node_ d' = scene_node_ d /\
  cloud_ d' = cloud_ d /\
  same_settings d d'.
Proof.
  unfold process_tree.
  destruct (reset_buffers _ _ _ _ _) as [[buf sizes]| |];
    cbn [obind]; try discriminate.
  destruct (traverse _ _ _ _ _ _ _ _ _) as [[buf' n]| |];
    cbn [obind]; try discriminate.
  destruct (negb (n =? 0)).
  - destruct (swap_buffers _ _ _ _) as [[pts' buf'']| |];
      cbn [obind]; try discriminate.
    intros H. injection H as <-. repeat split.
  - intros H. injection H as <-. repeat split.
Qed.

(** X11. Whenever the callback returns, the message was counted and
    reported: the counter is one higher and the status list is the former
    one followed by the new count under "Messages" and then, exactly when
    the message was dropped, by one error under "Message": the failed
    transform with the two frame names, or the failed decoding. A message
    that transforms and decodes adds no other status. The scene node takes
    the pose of every message that transforms, also of one that does not
    decode. The callback never writes to the clouds the renderer draws from,
    nor to the render mode, the colour mode or the colour factor. *)
Theorem callback_counts_and_keeps_clouds fuel context_ indeterminate msg d d' :
  incomingMessageCallback fuel context_ indeterminate msg d = Done d' ->
  messages_received_ d' = messages_received_ d + 1 /\
  status d'
  = status d
    ++ [mkStatus StatusOk "Messages"
          (number (messages_received_ d + 1) ++ " octomap messages received")]
    ++ match getTransform context_ msg, msgToMap context_ msg with
       | None, _ =>
           [mkStatus StatusError "Message"
              ("Failed to transform from frame [" ++ frame_id msg
               ++ "] to frame [" ++ getFixedFrame context_ ++ "]")]
       | Some _, Some (IsTextureOcTree _) => []
       | Some _, _ =>
           [mkStatus StatusError "Message" "Failed to create octree structure"]
       end /\
  scene_node_ d'
  = match getTransform context_ msg with
    | Some pose => Some pose
    | None => scene_node_ d
    end /\
  cloud_ d' = cloud_ d /\
  same_settings d d'.
Proof.
  unfold incomingMessageCallback.
  destruct (getTransform context_ msg) as [pose|].
  - destruct (msgToMap context_ msg) as [[octomap|]|].
    + intros H. apply process_tree_frame in H.
      destruct H as (Hm & Hs & Hn & Hc & Hset).
      cbn [set_scene_node setStatus set_messages_received messages_received_
           status cloud_ scene_node_] in *.
      split; [exact Hm|]. split; [now rewrite app_nil_r|].
      split; [exact Hn|]. split; [exact Hc | exact Hset].
    + intros H. injection H as <-. cbn.
      split; [reflexivity|]. split; [|repeat split].
      now rewrite <- app_assoc.
    + intros H. injection H as <-. cbn.
      split; [reflexivity|]. split; [|repeat split].
      now rewrite <- app_assoc.
  - intros H. injection H as <-. cbn.
    split; [reflexivity|]. split; [|repeat split].
    now rewrite <- app_assoc.
Qed.

Lemma callback_counts_and_keeps_clouds_witness :
  (exists d',
     incomingMessageCallback 4 (Sample.context_of Sample.solid_block)
       Sample.indeterminate Sample.msg Sample.pending = Done d' /\
     messages_received_ d' = 1 /\
     status d'
     = [mkStatus StatusOk "Messages" "1 octomap messages received"] /\
     scene_node_ d' = Some Sample.origin /\
     cloud_ d' = cloud_ Sample.pending) /\
  (exists d',
     incomingMessageCallback 4 Sample.no_transform
       Sample.indeterminate Sample.msg Sample.pending = Done d' /\
     messages_received_ d' = 1 /\
     status d'
     = [mkStatus StatusOk "Messages" "1 octomap messages received";
        mkStatus StatusError "Message"
          "Failed to transform from frame [sensor] to frame [map]"] /\
     scene_node_ d' = None) /\
  (exists d',
     incomingMessageCallback 4 Sample.not_a_texture_tree
       Sample.indeterminate Sample.msg Sample.pending = Done d' /\
     status d'
     = [mkStatus StatusOk "Messages" "1 octomap messages received";
        mkStatus StatusError "Message" "Failed to create octree structure"] /\
     scene_node_ d' = Some Sample.origin).
Proof.
  split; [|split].
  - eassert (H : incomingMessageCallback 4
                   (Sample.context_of Sample.solid_block)
                   Sample.indeterminate Sample.msg Sample.pending = Done _)
      by (vm_compute; reflexivity).
    eexists. split; [exact H|].
    destruct (callback_counts_and_keeps_clouds _ _ _ _ _ _ H)
      as (Hm & Hs & Hn & Hc & _).
    split; [exact Hm|]. split; [exact Hs|]. split; [exact Hn | exact Hc].
  - eassert (H : incomingMessageCallback 4 Sample.no_transform
                   Sample.indeterminate Sample.msg Sample.pending = Done _)
      by reflexivity.
    eexists. split; [exact H|].
    destruct (callback_counts_and_keeps_clouds _ _ _ _ _ _ H)
      as (Hm & Hs & Hn & _).
    split; [exact Hm|]. split; [exact Hs | exact Hn].
  - eassert (H : incomingMessageCallback 4 Sample.not_a_texture_tree
                   Sample.indeterminate Sample.msg Sample.pending = Done _)
      by reflexivity.
    eexists. split; [exact H|].
    destruct (callback_counts_and_keeps_clouds _ _ _ _ _ _ H)
      as (_ & Hs & Hn & _).
    split; [exact Hs | exact Hn].
Defined.

(** ** The sixteen slots *)

Lemma resize_length {A : Type} n (x : A) v : length (resize n x v) = n.
Proof.
  unfold resize. rewrite length_app, length_take, length_replicate. lia.
Qed.

Lemma reset_buffers_length octomap count i buf sizes buf' sizes' :
  reset_buffers octomap count i buf sizes = Done (buf', sizes') ->
  length buf' = length buf /\ length sizes' = length sizes.
Proof.
  revert i buf sizes. induction count as [|count IH]; intros i buf sizes H;
    cbn [reset_buffers] in H.
  - injection H as <- <-. split; reflexivity.
  - destruct (vec_update buf i _) as [b1| |] eqn:Eb; cbn [obind] in H;
      try discriminate.
    destruct (vec_update sizes i _) as [s1| |] eqn:Es; cbn [obind] in H;
      try discriminate.
    apply vec_update_done in Eb. destruct Eb as (_ & _ & ->).
    apply vec_update_done in Es. destruct Es as (_ & _ & ->).
    apply IH in H. now rewrite !length_alter in H.
Qed.

Lemma swap_buffers_length count i (pts buf pts' buf' : list (list Point)) :
  swap_buffers count i pts buf = Done (pts', buf') ->
  length pts' = length pts /\ length buf' = length buf.
Proof.
  revert i pts buf. induction count as [|count IH]; intros i pts buf H;
    cbn [swap_buffers] in H.
  - injection H as <- <-. split; reflexivity.
  - destruct (vec_at pts i) as [a| |]; cbn [obind] in H; try discriminate.
    destruct (vec_at buf i) as [b| |]; cbn [obind] in H; try discriminate.
    apply IH in H. now rewrite !length_alter in H.
Qed.

Lemma drain_length count i sizes clouds pts clouds' pts' :
  drain count i sizes clouds pts = Done (clouds', pts') ->
  length clouds' = length clouds /\ length pts' = length pts.
Proof.
  revert i clouds pts. induction count as [|count IH]; intros i clouds pts H;
    cbn [drain] in H.
  - injection H as <- <-. split; reflexivity.
  - destruct (vec_at sizes i) as [size| |]; cbn [obind] in H;
      try discriminate.
    destruct (vec_at clouds i) as [cloud| |]; cbn [obind] in H;
      try discriminate.
    destruct (vec_at pts i) as [bucket| |]; cbn [obind] in H;
      try discriminate.
    destruct (vec_front bucket) as [first| |]; cbn [obind] in H;
      try discriminate.
    apply IH in H. now rewrite !length_alter in H.
Qed.

(** X12. The four vectors keep their [max_octree_depth_] slots: a display
    that is initialised stays so through every callback and every update
    that return, and through [clear] and [reset]. *)
Theorem initialized_is_kept fuel context_ indeterminate msg d :
  initialized d ->
  (forall d',
     incomingMessageCallback fuel context_ indeterminate msg d = Done d' ->
     initialized d') /\
  (forall d', update d = Done d' -> initialized d') /\
  initialized (clear d) /\
  initialized (reset d).
Proof.
  intros (Hsz & Hcl & Hbuf & Hpts). split; [|split; [|split]].
  - intros d'. unfold incomingMessageCallback.
    destruct (getTransform context_ msg) as [pose|];
      [|intros H; injection H as <-; repeat split; assumption].
    destruct (msgToMap context_ msg) as [[octomap|]|];
      [|intros H; injection H as <-; repeat split; assumption
       |intros H; injection H as <-; repeat split; assumption].
    unfold process_tree.
    cbn [tree_depth_setMax set_scene_node setStatus set_messages_received
         point_buf_ box_size_ new_points_ cloud_ new_points_received_
         octree_render_property_ octree_coloring_property_ color_factor_].
    destruct (reset_buffers _ _ _ _ _) as [[buf sizes]| |] eqn:Er;
      cbn [obind]; try discriminate.
    apply reset_buffers_length in Er. destruct Er as (Er1 & Er2).
    destruct (traverse _ _ _ _ _ _ _ _ _) as [[buf' n]| |] eqn:Et;
      cbn [obind]; try discriminate.
    apply traverse_length in Et. destruct Et as (Et & _). cbn [fst] in Et.
    destruct (negb (n =? 0)).
    + destruct (swap_buffers _ _ _ _) as [[pts' buf'']| |] eqn:Es;
        cbn [obind]; try discriminate.
      apply swap_buffers_length in Es. destruct Es as (Es1 & Es2).
      intros H. injection H as <-. unfold initialized.
      cbn [set_buffers box_size_ cloud_ point_buf_ new_points_ fst snd].
      repeat split; congruence.
    + intros H. injection H as <-. unfold initialized.
      cbn [set_buffers box_size_ cloud_ point_buf_ new_points_].
      repeat split; congruence.
  - intros d'. unfold update. destruct (new_points_received_ d);
      [|intros H; injection H as <-; repeat split; assumption].
    destruct (drain _ _ _ _ _) as [[clouds' pts']| |] eqn:Ed;
      cbn [obind]; try discriminate.
    apply drain_length in Ed. destruct Ed as (Ed1 & Ed2).
    intros H. injection H as <-. unfold initialized.
    cbn [set_buffers box_size_ cloud_ point_buf_ new_points_ fst snd].
    repeat split; congruence.
  - unfold initialized, clear.
    cbn [set_buffers box_size_ cloud_ point_buf_ new_points_].
    rewrite length_map. repeat split; assumption.
  - unfold initialized, reset, clear.
    cbn [setStatus set_messages_received set_buffers box_size_ cloud_
         point_buf_ new_points_].
    rewrite length_map. repeat split; assumption.
Qed.

Lemma initialized_is_kept_witness :
  initialized Sample.pending_full /\
  (exists d',
     incomingMessageCallback 4 (Sample.context_of Sample.solid_block)
       Sample.indeterminate Sample.msg Sample.pending_full = Done d' /\
     initialized d') /\
  (exists d', update Sample.pending_full = Done d' /\ initialized d').
Proof.
  assert (Hi : initialized Sample.pending_full) by (repeat split; reflexivity).
  split; [exact Hi|].
  destruct (initialized_is_kept 4 (Sample.context_of Sample.solid_block)
              Sample.indeterminate Sample.msg Sample.pending_full Hi)
    as (Hcb & Hup & _).
  split.
  - eassert (H : incomingMessageCallback 4
                   (Sample.context_of Sample.solid_block)
                   Sample.indeterminate Sample.msg Sample.pending_full
                 = Done _) by (vm_compute; reflexivity).
    eexists. split; [exact H | exact (Hcb _ H)].
  - eassert (H : update Sample.pending_full = Done _)
      by (vm_compute; reflexivity).
    eexists. split; [exact H | exact (Hup _ H)].
Defined.

Lemma fold_alter_all {A : Type} (x : A) (v : list A) :
  length v = max_octree_depth_ ->
  fold_left (fun cs i => alter (fun _ => x) i cs) (seq 0 max_octree_depth_) v
  = replicate max_octree_depth_ x.
Proof. intros H. sixteen v H. reflexivity. Qed.

(** X13. [onInitialize] establishes the sixteen slots from any state: all
    four vectors get [max_octree_depth_] entries and every cloud slot holds a
    fresh cloud. On a display as constructed, the buckets of both
    generations are empty, the dirty flag is clear, and the first [update]
    changes nothing. *)
Theorem onInitialize_sizes_the_vectors fresh d :
  initialized (onInitialize fresh d) /\
  cloud_ (onInitialize fresh d) = replicate max_octree_depth_ fresh /\
  new_points_received_ (onInitialize fresh d) = new_points_received_ d /\
  new_points_ (onInitialize fresh constructed)
  = replicate max_octree_depth_ [] /\
  point_buf_ (onInitialize fresh constructed)
  = replicate max_octree_depth_ [] /\
  update (onInitialize fresh constructed)
  = Done (onInitialize fresh constructed).
Proof.
  assert (Hc : cloud_ (onInitialize fresh d)
               = replicate max_octree_depth_ fresh).
  { unfold onInitialize. cbn [set_buffers cloud_].
    apply fold_alter_all, resize_length. }
  split; [|split; [exact Hc | repeat split]].
  unfold initialized. rewrite Hc. unfold onInitialize.
  cbn [set_buffers box_size_ point_buf_ new_points_].
  rewrite !resize_length, length_replicate. repeat split.
Qed.

(** ** Draining *)

(** X14. When the dirty flag is set and each of the sixteen buckets holds a
    point, [update] replaces the content of every cloud by the points of its
    bucket, in order, with the box size of that level on all three axes; it
    leaves the buckets empty and the dirty flag clear, and does not touch
    the working buffer nor the box sizes. *)
Theorem update_draws_every_bucket d :
  initialized d ->
  new_points_received_ d = true ->
  Forall (fun bucket => bucket <> []) (new_points_ d) ->
  exists d',
    update d = Done d' /\
    (forall (i : nat) size bucket,
       box_size_ d !! i = Some size ->
       new_points_ d !! i = Some bucket ->
       cloud_ d' !! i = Some (mkCloud (size, size, size) bucket)) /\
    new_points_ d' = replicate max_octree_depth_ [] /\
    new_points_received_ d' = false /\
    point_buf_ d' = point_buf_ d /\
    box_size_ d' = box_size_ d.
Proof.
  intros (Hsz & Hcl & _ & Hpts) Hflag Hne. unfold update. rewrite Hflag.
  destruct d as [flag cnt cf prop pmax render colouring sizes clouds buf pts
                   node st].
  cbn [box_size_ cloud_ new_points_ point_buf_] in *.
  sixteen sizes Hsz. sixteen clouds Hcl. sixteen pts Hpts.
  repeat match goal with
         | H : Forall _ (?b :: _) |- _ =>
             let Hb := fresh in
             apply Forall_cons_1 in H; destruct H as (Hb & H);
             destruct b; [now contradiction Hb | clear Hb]
         end.
  eexists. split; [reflexivity|]. split; [|repeat split].
  intros i size bucket Hs Hb.
  do 16 (destruct i as [|i];
         [cbn in Hs, Hb; injection Hs as <-; injection Hb as <-; reflexivity|]).
  discriminate Hs.
Qed.

Lemma update_draws_every_bucket_witness :
  initialized Sample.pending_full /\
  new_points_received_ Sample.pending_full = true /\
  Forall (fun bucket => bucket <> []) (new_points_ Sample.pending_full) /\
  exists d',
    update Sample.pending_full = Done d' /\
    cloud_ d' !! 15%nat
    = Some (mkCloud (Fin (1 # 20), Fin (1 # 20), Fin (1 # 20))
              [Sample.old_point]) /\
    new_points_received_ d' = false.
Proof.
  assert (Hi : initialized Sample.pending_full) by (repeat split; reflexivity).
  assert (Hf : new_points_received_ Sample.pending_full = true) by reflexivity.
  assert (Hn : Forall (fun bucket => bucket <> [])
                 (new_points_ Sample.pending_full))
    by (repeat constructor; discriminate).
  split; [exact Hi|]. split; [exact Hf|]. split; [exact Hn|].
  destruct (update_draws_every_bucket Sample.pending_full Hi Hf Hn)
    as (d' & Hd & Hc & _ & Hflag & _).
  exists d'. split; [exact Hd|]. split; [|exact Hflag].
  apply Hc; reflexivity.
Defined.

(** X15. An [update] that returns leaves a display that is not dirty: the
    flag is clear, a second [update] returns the same display, and the
    counter, the status list, the working buffer and the box sizes are never
    written by [update]. *)
Theorem update_leaves_nothing_to_draw d d' :
  update d = Done d' ->
  new_points_received_ d' = false /\
  update d' = Done d' /\
  point_buf_ d' = point_buf_ d /\
  box_size_ d' = box_size_ d /\
  messages_received_ d' = messages_received_ d /\
  status d' = status d.
Proof.
  unfold update at 1. destruct (new_points_received_ d) eqn:E.
  - destruct (drain _ _ _ _ _) as [drained| |]; cbn [obind]; try discriminate.
    intros H. injection H as <-. unfold update.
    cbn [set_buffers new_points_received_]. repeat split.
  - intros H. injection H as <-. unfold update. rewrite E. repeat split.
Qed.

Lemma update_leaves_nothing_to_draw_witness :
  exists d',
    update Sample.pending_full = Done d' /\
    new_points_received_ d' = false /\
    update d' = Done d'.
Proof.
  eassert (H : update Sample.pending_full = Done _)
    by (vm_compute; reflexivity).
  eexists. split; [exact H|].
  destruct (update_leaves_nothing_to_draw _ _ H) as (Hf & Hu & _).
  split; [exact Hf | exact Hu].
Defined.

(** X16. [clear] and [reset] are idempotent on what they empty: clearing
    twice is clearing once, and a second [reset] only repeats the status
    report of the first. *)
Theorem clear_and_reset_twice d :
  clear (clear d) = clear d /\
  reset (reset d)
  = setStatus StatusOk "Messages" "0 binary octomap messages received"
      (reset d) /\
  clear (reset d) = reset d.
Proof.
  assert (Hm : forall l, map cloud_clear (map cloud_clear l)
                         = map cloud_clear l).
  { intros l. rewrite List.map_map. reflexivity. }
  unfold reset, clear.
  cbn [setStatus set_messages_received set_buffers new_points_received_
       box_size_ cloud_ point_buf_ new_points_ messages_received_
       color_factor_ tree_depth_property_ tree_depth_property_max
       octree_render_property_ octree_coloring_property_ scene_node_ status].
  rewrite !Hm. repeat split.
Qed.

(** ** Subscribing and unsubscribing *)

Lemma clear_clear d : clear (clear d) = clear d.
Proof.
  unfold clear.
  cbn [set_buffers new_points_received_ box_size_ cloud_ point_buf_
       new_points_].
  rewrite List.map_map. reflexivity.
Qed.

Lemma clear_empties d : Forall (fun c => cloud_points c = []) (cloud_ (clear d)).
Proof. cbn. apply List.Forall_map. apply Forall_forall. reflexivity. Qed.

Lemma unsubscribe_result ros s :
  sub_ (unsubscribe ros s) = None /\
  isEnabled (unsubscribe ros s) = isEnabled s /\
  scene_visible (unsubscribe ros s) = scene_visible s /\
  queue_size_ (unsubscribe ros s) = queue_size_ s /\
  queue_size_property_ (unsubscribe ros s) = queue_size_property_ s /\
  octomap_topic_property_ (unsubscribe ros s) = octomap_topic_property_ s /\
  renders_queued (unsubscribe ros s) = renders_queued s /\
  cloud_ (pipeline (unsubscribe ros s)) = map cloud_clear (cloud_ (pipeline s)) /\
  messages_received_ (pipeline (unsubscribe ros s))
  = messages_received_ (pipeline s) /\
  same_exchange (pipeline s) (pipeline (unsubscribe ros s)) /\
  same_settings (pipeline s) (pipeline (unsubscribe ros s)).
Proof.
  unfold unsubscribe.
  destruct (release_throws ros (sub_ (with_pipeline clear s))); cbn;
    repeat split.
Qed.

Lemma subscribe_frame ros s :
  same_exchange (pipeline s) (pipeline (subscribe ros s)) /\
  same_settings (pipeline s) (pipeline (subscribe ros s)) /\
  messages_received_ (pipeline (subscribe ros s))
  = messages_received_ (pipeline s) /\
  isEnabled (subscribe ros s) = isEnabled s /\
  scene_visible (subscribe ros s) = scene_visible s /\
  queue_size_ (subscribe ros s) = queue_size_ s /\
  octomap_topic_property_ (subscribe ros s) = octomap_topic_property_ s /\
  renders_queued (subscribe ros s) = renders_queued s.
Proof.
  unfold subscribe. destruct (isEnabled s) eqn:E; cbn [negb];
    [|rewrite E; repeat split].
  destruct (unsubscribe_result ros s)
    as (_ & He & Hv & Hq & _ & Ht & Hr & _ & Hm & Hx & Hs).
  destruct (negb (String.eqb _ "")).
  - cbn [set_sub queue_size_ octomap_topic_property_].
    destruct (subscribe_throws ros _ _); cbn; rewrite ?He, ?E;
      repeat split; try apply Hx; try apply Hs; assumption.
  - rewrite He, E. repeat split; try apply Hx; try apply Hs; assumption.
Qed.


(** X18. [onDisable] always ends with the scene node hidden, no subscriber
    and every cloud empty, also when releasing the subscriber throws. *)
Theorem onDisable_stops_and_clears ros s :
  sub_ (onDisable ros s) = None /\
  scene_visible (onDisable ros s) = false /\
  Forall (fun c => cloud_points c = []) (cloud_ (pipeline (onDisable ros s))) /\
  length (cloud_ (pipeline (onDisable ros s))) = length (cloud_ (pipeline s)) /\
  octomap_topic_property_ (onDisable ros s) = octomap_topic_property_ s /\
  queue_size_ (onDisable ros s) = queue_size_ s.
Proof.
  unfold onDisable.
  destruct (unsubscribe_result ros (setVisible false s))
    as (Hsub & _ & Hv & Hq & _ & Ht & _ & Hc & _).
  cbn [with_pipeline sub_ scene_visible pipeline octomap_topic_property_
       queue_size_].
  split; [exact Hsub|]. split; [exact Hv|].
  split; [apply clear_empties|].
  split; [|split; [exact Ht | exact Hq]].
  cbn [clear set_buffers cloud_]. rewrite Hc. cbn [setVisible pipeline].
  now rewrite !length_map.
Qed.

Lemma subscribe_accepted ros s :
  isEnabled s = true ->
  octomap_topic_property_ s <> ""%string ->
  subscribe_throws ros (octomap_topic_property_ s) (queue_size_ s) = None ->
  sub_ (subscribe ros s)
  = Some (mkSubscriber (Some (octomap_topic_property_ s, queue_size_ s)) true).
Proof.
  intros He Ht Hok. unfold subscribe. rewrite He. cbn [negb].
  destruct (unsubscribe_result ros s) as (_ & _ & _ & Hq & _ & Htopic & _).
  rewrite Htopic.
  replace (String.eqb (octomap_topic_property_ s) "") with false
    by (symmetry; now apply String.eqb_neq).
  cbn [negb set_sub queue_size_ octomap_topic_property_].
  rewrite Hq, Hok. reflexivity.
Qed.

(** X19. On an enabled display with a topic set, when the transport accepts
    the subscription, [subscribe] ends with one subscriber on that topic,
    with the current queue size and the callback registered; [onEnable] does
    the same and shows the scene node, and [updateQueueSize] subscribes with
    the size taken from the property. *)
Theorem subscribing_uses_topic_and_queue_size ros s :
  isEnabled s = true ->
  octomap_topic_property_ s <> ""%string ->
  (forall size, subscribe_throws ros (octomap_topic_property_ s) size = None) ->
  sub_ (subscribe ros s)
  = Some (mkSubscriber (Some (octomap_topic_property_ s, queue_size_ s)) true) /\
  sub_ (onEnable ros s)
  = Some (mkSubscriber (Some (octomap_topic_property_ s, queue_size_ s)) true) /\
  scene_visible (onEnable ros s) = true /\
  sub_ (updateQueueSize ros s)
  = Some (mkSubscriber
            (Some (octomap_topic_property_ s, queue_size_property_ s)) true) /\
  queue_size_ (updateQueueSize ros s) = queue_size_property_ s.
Proof.
  intros He Ht Hok.
  split; [now apply subscribe_accepted|].
  split; [now apply (subscribe_accepted ros (setVisible true s))|].
  split; [apply (subscribe_frame ros (setVisible true s))|].
  split; [now apply (subscribe_accepted ros (set_queue_size _ s))|].
  apply (subscribe_frame ros (set_queue_size _ s)).
Qed.

Lemma subscribing_uses_topic_and_queue_size_witness :
  isEnabled Scene.running = true /\
  octomap_topic_property_ Scene.running <> ""%string /\
  (forall size,
     subscribe_throws Scene.quiet (octomap_topic_property_ Scene.running) size
     = None) /\
  sub_ (updateQueueSize Scene.quiet Scene.running)
  = Some (mkSubscriber (Some ("/octomap_full"%string, 10)) true).
Proof.
  assert (He : isEnabled Scene.running = true) by reflexivity.
  assert (Ht : octomap_topic_property_ Scene.running <> ""%string)
    by discriminate.
  assert (Hok : forall size,
            subscribe_throws Scene.quiet
              (octomap_topic_property_ Scene.running) size = None)
    by reflexivity.
  split; [exact He|]. split; [exact Ht|]. split; [exact Hok|].
  exact (proj1 (proj2 (proj2 (proj2
           (subscribing_uses_topic_and_queue_size Scene.quiet Scene.running
              He Ht Hok))))).
Defined.

(** X20. [subscribe] on a display that is not enabled returns at once and
    changes nothing, not even the clouds; on an enabled display without a
    topic it unsubscribes, clears the clouds and creates no subscriber. *)
Theorem subscribe_needs_enabled_and_topic ros s :
  (isEnabled s = false -> subscribe ros s = s) /\
  (isEnabled s = true -> octomap_topic_property_ s = ""%string ->
   subscribe ros s = unsubscribe ros s /\ sub_ (subscribe ros s) = None) /\
  (sub_ s = None ->
   forall sub, sub_ (subscribe ros s) = Some sub ->
     isEnabled s = true /\ octomap_topic_property_ s <> ""%string).
Proof.
  split; [|split].
  - intros He. unfold subscribe. now rewrite He.
  - intros He Ht. unfold subscribe. rewrite He. cbn [negb].
    destruct (unsubscribe_result ros s) as (Hsub & _ & _ & _ & _ & Htopic & _).
    rewrite Htopic, Ht. cbn [String.eqb negb]. split; [reflexivity | exact Hsub].
  - intros Hnone sub. unfold subscribe.
    destruct (isEnabled s); cbn [negb]; [|congruence].
    destruct (unsubscribe_result ros s) as (Hsub & _ & _ & _ & _ & Htopic & _).
    rewrite Htopic.
    destruct (String.eqb (octomap_topic_property_ s) "") eqn:E; cbn [negb].
    + congruence.
    + intros _. split; [reflexivity|]. now apply String.eqb_neq.
Qed.

Lemma subscribe_needs_enabled_and_topic_witness :
  isEnabled Scene.disabled = false /\
  subscribe Scene.refusing Scene.disabled = Scene.disabled.
Proof.
  assert (H : isEnabled Scene.disabled = false) by reflexivity.
  split; [exact H|].
  exact (proj1 (subscribe_needs_enabled_and_topic Scene.refusing
                  Scene.disabled) H).
Defined.

(** X21. When the transport refuses the subscription, [subscribe] reports
    "Error subscribing: ..." under "Topic" and leaves a subscriber that is
    not subscribed and has no callback registered, so no message will reach
    the display; the buckets and the dirty flag are untouched. *)
Theorem refused_subscription_is_reported ros s what :
  isEnabled s = true ->
  octomap_topic_property_ s <> ""%string ->
  subscribe_throws ros (octomap_topic_property_ s) (queue_size_ s)
  = Some what ->
  sub_ (subscribe ros s) = Some (mkSubscriber None false) /\
  last (status (pipeline (subscribe ros s)))
  = Some (mkStatus StatusError "Topic" ("Error subscribing: " ++ what)) /\
  same_exchange (pipeline s) (pipeline (subscribe ros s)).
Proof.
  intros He Ht Hthrow. split; [|split; [|apply subscribe_frame]].
  - unfold subscribe. rewrite He. cbn [negb].
    destruct (unsubscribe_result ros s) as (_ & _ & _ & Hq & _ & Htopic & _).
    rewrite Htopic.
    replace (String.eqb (octomap_topic_property_ s) "") with false
      by (symmetry; now apply String.eqb_neq).
    cbn [negb set_sub queue_size_ octomap_topic_property_].
    rewrite Hq, Hthrow. reflexivity.
  - unfold subscribe. rewrite He. cbn [negb].
    destruct (unsubscribe_result ros s) as (_ & _ & _ & Hq & _ & Htopic & _).
    rewrite Htopic.
    replace (String.eqb (octomap_topic_property_ s) "") with false
      by (symmetry; now apply String.eqb_neq).
    cbn [negb set_sub queue_size_ octomap_topic_property_].
    rewrite Hq, Hthrow. cbn [with_pipeline pipeline setStatus status].
    apply last_snoc.
Qed.

Lemma refused_subscription_is_reported_witness :
  isEnabled Scene.running = true /\
  octomap_topic_property_ Scene.running <> ""%string /\
  subscribe_throws Scene.refusing (octomap_topic_property_ Scene.running)
    (queue_size_ Scene.running) = Some "no master"%string /\
  sub_ (subscribe Scene.refusing Scene.running)
  = Some (mkSubscriber None false) /\
  last (status (pipeline (subscribe Scene.refusing Scene.running)))
  = Some (mkStatus StatusError "Topic" "Error subscribing: no master").
Proof.
  assert (He : isEnabled Scene.running = true) by reflexivity.
  assert (Ht : octomap_topic_property_ Scene.running <> ""%string)
    by discriminate.
  assert (Hx : subscribe_throws Scene.refusing
                 (octomap_topic_property_ Scene.running)
                 (queue_size_ Scene.running) = Some "no master"%string)
    by reflexivity.
  split; [exact He|]. split; [exact Ht|]. split; [exact Hx|].
  destruct (refused_subscription_is_reported Scene.refusing Scene.running
              _ He Ht Hx) as (Hs & Hl & _).
  split; [exact Hs | exact Hl].
Defined.

(** X22. A change of topic starts afresh: after [updateTopic] the message
    counter is 0, every cloud is empty and one more render is queued; on an
    enabled display with a topic that the transport accepts, the subscriber
    is on the new topic with the current queue size. *)
Theorem updateTopic_starts_afresh ros s :
  messages_received_ (pipeline (updateTopic ros s)) = 0 /\
  Forall (fun c => cloud_points c = [])
    (cloud_ (pipeline (updateTopic ros s))) /\
  renders_queued (updateTopic ros s) = S (renders_queued s) /\
  (isEnabled s = true ->
   octomap_topic_property_ s <> ""%string ->
   subscribe_throws ros (octomap_topic_property_ s) (queue_size_ s) = None ->
   sub_ (updateTopic ros s)
   = Some (mkSubscriber (Some (octomap_topic_property_ s, queue_size_ s))
             true)).
Proof.
  unfold updateTopic.
  set (s1 := with_pipeline reset (unsubscribe ros s)).
  destruct (unsubscribe_result ros s)
    as (_ & He & _ & Hq & _ & Ht & Hr & _).
  cbn [queueRender pipeline renders_queued sub_].
  split; [|split; [|split]].
  - destruct (subscribe_frame ros s1) as (_ & _ & Hm & _). rewrite Hm.
    reflexivity.
  - unfold subscribe. destruct (isEnabled s1); cbn [negb].
    + destruct (unsubscribe_result ros s1)
        as (_ & _ & _ & _ & _ & _ & _ & Hc & _).
      assert (Hall : Forall (fun c => cloud_points c = [])
                       (cloud_ (pipeline (unsubscribe ros s1))))
        by (rewrite Hc; apply List.Forall_map, Forall_forall; reflexivity).
      destruct (negb (String.eqb _ "")); [|exact Hall].
      cbn [set_sub queue_size_ octomap_topic_property_].
      destruct (subscribe_throws ros _ _); exact Hall.
    + unfold s1, reset. cbn [with_pipeline pipeline setStatus
                             set_messages_received cloud_].
      apply clear_empties.
  - destruct (subscribe_frame ros s1) as (_ & _ & _ & _ & _ & _ & _ & Hrq).
    rewrite Hrq. unfold s1. cbn [with_pipeline renders_queued].
    now rewrite Hr.
  - intros Hen Htopic Hok.
    rewrite (subscribe_accepted ros s1); unfold s1;
      cbn [with_pipeline isEnabled octomap_topic_property_ queue_size_];
      rewrite ?He, ?Ht, ?Hq; auto.
Qed.

Lemma updateTopic_starts_afresh_witness :
  isEnabled Scene.running = true /\
  octomap_topic_property_ Scene.running <> ""%string /\
  subscribe_throws Scene.quiet (octomap_topic_property_ Scene.running)
    (queue_size_ Scene.running) = None /\
  sub_ (updateTopic Scene.quiet Scene.running)
  = Some (mkSubscriber (Some ("/octomap_full"%string, 5)) true) /\
  messages_received_ (pipeline (updateTopic Scene.quiet Scene.running)) = 0.
Proof.
  assert (He : isEnabled Scene.running = true) by reflexivity.
  assert (Ht : octomap_topic_property_ Scene.running <> ""%string)
    by discriminate.
  assert (Hx : subscribe_throws Scene.quiet
                 (octomap_topic_property_ Scene.running)
                 (queue_size_ Scene.running) = None) by reflexivity.
  split; [exact He|]. split; [exact Ht|]. split; [exact Hx|].
  destruct (updateTopic_starts_afresh Scene.quiet Scene.running)
    as (Hm & _ & _ & Hs).
  split; [exact (Hs He Ht Hx) | exact Hm].
Defined.

(** X23. With a transport that never throws, subscribing again changes
    nothing: [subscribe] after [subscribe] is [subscribe], and so is
    [subscribe] after [unsubscribe]. *)
Theorem subscribe_again_changes_nothing ros s :
  (forall topic size, subscribe_throws ros topic size = None) ->
  (forall sub, release_throws ros sub = None) ->
  subscribe ros (subscribe ros s) = subscribe ros s /\
  (isEnabled s = true -> subscribe ros (unsubscribe ros s) = subscribe ros s).
Proof.
  intros Hsub Hrel.
  destruct s as [p en vis q qp topic sub rq].
  unfold subscribe, unsubscribe.
  cbn [isEnabled with_pipeline set_sub sub_ pipeline octomap_topic_property_
       queue_size_ scene_visible queue_size_property_ renders_queued].
  rewrite !Hrel.
  cbn [isEnabled with_pipeline set_sub sub_ pipeline octomap_topic_property_
       queue_size_ scene_visible queue_size_property_ renders_queued].
  destruct en; cbn [negb]; [|split; [reflexivity | discriminate]].
  destruct (negb (String.eqb topic "")) eqn:Et;
    cbn [isEnabled with_pipeline set_sub sub_ pipeline
         octomap_topic_property_ queue_size_ scene_visible
         queue_size_property_ renders_queued negb];
    rewrite ?Hsub, ?Hrel;
    cbn [isEnabled with_pipeline set_sub sub_ pipeline
         octomap_topic_property_ queue_size_ scene_visible
         queue_size_property_ renders_queued negb];
    rewrite ?Et, ?Hsub;
    unfold set_sub, with_pipeline;
    cbn [isEnabled sub_ pipeline octomap_topic_property_ queue_size_
         scene_visible queue_size_property_ renders_queued];
    rewrite ?clear_clear; split; reflexivity.
Qed.

Lemma subscribe_again_changes_nothing_witness :
  (forall topic size, subscribe_throws Scene.quiet topic size = None) /\
  (forall sub, release_throws Scene.quiet sub = None) /\
  subscribe Scene.quiet (subscribe Scene.quiet Scene.running)
  = subscribe Scene.quiet Scene.running.
Proof.
  assert (H1 : forall topic size,
            subscribe_throws Scene.quiet topic size = None) by reflexivity.
  assert (H2 : forall sub, release_throws Scene.quiet sub = None)
    by reflexivity.
  split; [exact H1|]. split; [exact H2|].
  exact (proj1 (subscribe_again_changes_nothing Scene.quiet Scene.running
                  H1 H2)).
Defined.
